(** * The AirTable submission relay ([api/submit-form.js])

    A shallow embedding of the handler [submitToAirTable]: JavaScript values
    as an inductive type, exceptions as an explicit [result], and the effects
    of the handler (the [res] object, [console.error], the outbound [fetch])
    as a state monad over a [world] that survives a thrown error, as the
    side effects of a JavaScript [try] block do. *)

From Stdlib Require Import String Ascii List ZArith Bool Lia DecimalString.
Import ListNotations.
Local Open Scope string_scope.
Local Open Scope Z_scope.
Set Warnings "-register-all".

(** ** Errors *)

(** The handler only ever inspects [error.message]; the name is kept for the
    log. *)
Record js_error : Type := mkError { err_name : string; err_message : string }.

Inductive result (A : Type) : Type :=
| Ok (a : A)
| Throw (e : js_error).
Arguments Ok {A} a.
Arguments Throw {A} e.

Definition rbind {A B} (r : result A) (k : A -> result B) : result B :=
  match r with
  | Ok a => k a
  | Throw e => Throw e
  end.

Declare Scope result_scope.
Delimit Scope result_scope with result.
Notation "x <- r ;; k" := (rbind r (fun x => k))
  (at level 61, r at next level, right associativity) : result_scope.

(** ** Strings: [encodeURIComponent]

    A [string] is the UTF-8 byte sequence of a JavaScript string;
    [encodeURIComponent] keeps the unreserved ASCII characters and writes
    every other byte as [%XX], upper-case hexadecimal. *)

Definition hex_digit (n : N) : ascii :=
  ascii_of_N (if (n <? 10)%N then 48 + n else 55 + n)%N.

Definition uri_unreserved (c : ascii) : bool :=
  let n := N_of_ascii c in
  ((65 <=? n) && (n <=? 90) || (97 <=? n) && (n <=? 122)
   || (48 <=? n) && (n <=? 57))%N
  || existsb (Ascii.eqb c)
       ["-"; "_"; "."; "!"; "~"; "*"; "'"; "("; ")"]%char.

Fixpoint encodeURIComponent (s : string) : string :=
  match s with
  | EmptyString => EmptyString
  | String c rest =>
      if uri_unreserved c then String c (encodeURIComponent rest)
      else
        let n := N_of_ascii c in
        String "%" (String (hex_digit (n / 16)) (String (hex_digit (n mod 16))
          (encodeURIComponent rest)))
  end.

(** ** Values *)

Section Values.

Context {number : Type}.

Inductive value : Type :=
| VUndefined
| VNull
| VBool (b : bool)
| VNum (n : number)
| VStr (s : string)
| VArr (items : list value)
| VObj (props : list (string * value)).

End Values.

(** ** What the runtime supplies

    The handler never computes with numbers: it only tests them for
    truthiness and interpolates them into strings. The number type and these
    two operations are left to the runtime, as is the wording of the two
    [TypeError]s the handler can provoke: on reading property [k] of
    [undefined] or [null], and on converting to a string an object that has
    no primitive value. *)

Class Runtime (number : Type) : Type := {
  number_truthy : number -> bool;
  number_to_string : number -> string;
  msg_cannot_read : @value number -> string -> string;
  msg_no_primitive : string
}.

Section Relay.

Context {number : Type} {runtime : Runtime number}.

Local Abbreviation value := (@value number).

Definition type_error (m : string) : js_error := mkError "TypeError" m.

Definition is_nullish (v : value) : bool :=
  match v with
  | VUndefined | VNull => true
  | _ => false
  end.

Definition is_boolean (v : value) : bool :=
  match v with
  | VBool _ => true
  | _ => false
  end.

Definition is_empty_string (v : value) : bool :=
  match v with
  | VStr "" => true
  | _ => false
  end.

(** [ToBoolean]. *)
Definition truthy (v : value) : bool :=
  match v with
  | VUndefined | VNull => false
  | VBool b => b
  | VNum n => number_truthy n
  | VStr s => negb (s =? "")%string
  | VArr _ | VObj _ => true
  end.

(** [a || b] and [a && b] with a right operand that has no effect. *)
Definition js_or (a b : value) : value := if truthy a then a else b.
Definition js_and (a b : value) : value := if truthy a then b else a.

(** [v === 'lit'] for a string literal. *)
Definition strict_eq_str (v : value) (lit : string) : bool :=
  match v with
  | VStr s => (s =? lit)%string
  | _ => false
  end.

(** Own data property of an object, first binding of the key. *)
Fixpoint lookup (k : string) (props : list (string * value)) : option value :=
  match props with
  | [] => None
  | (k', v) :: rest => if (k' =? k)%string then Some v else lookup k rest
  end.

(** [v.k] on a value that is neither [undefined] nor [null]. The names the
    handler reads are own data properties or nothing: none of them is an
    array index, [length], or a member of a built-in prototype, so a
    primitive or an array yields [undefined]. *)
Definition prop (v : value) (k : string) : value :=
  match v with
  | VObj props =>
      match lookup k props with
      | Some x => x
      | None => VUndefined
      end
  | _ => VUndefined
  end.

(** [v.k]: a [TypeError] on [undefined] and [null]. *)
Definition member (v : value) (k : string) : result value :=
  if is_nullish v then Throw (type_error (msg_cannot_read v k))
  else Ok (prop v k).

(** [v?.k]. *)
Definition opt_member (v : value) (k : string) : value :=
  if is_nullish v then VUndefined else prop v k.

(** [ToString], as a template literal and [new Error(x)] apply it. An object
    parsed from JSON has no callable [toString] or [valueOf]: with an own
    [toString] property (which shadows the inherited method) the conversion
    has no primitive to return and throws; without one it is the inherited
    [Object.prototype.toString]. An array joins its elements with commas,
    [undefined] and [null] counting as empty. *)
Fixpoint to_string (v : value) : result string :=
  match v with
  | VUndefined => Ok "undefined"
  | VNull => Ok "null"
  | VBool true => Ok "true"
  | VBool false => Ok "false"
  | VNum n => Ok (number_to_string n)
  | VStr s => Ok s
  | VArr items =>
      (fix join (first : bool) (l : list value) : result string :=
         match l with
         | [] => Ok ""
         | x :: rest =>
             (sx <- (if is_nullish x then Ok "" else to_string x) ;;
              srest <- join false rest ;;
              Ok ((if first then "" else ",") ++ sx ++ srest))%result
         end) true items
  | VObj props =>
      match lookup "toString" props with
      | Some _ => Throw (type_error msg_no_primitive)
      | None => Ok "[object Object]"
      end
  end.

(** [new Error(x)]: the message is [ToString(x)] unless [x] is
    [undefined]. *)
Definition new_Error (x : value) : result js_error :=
  match x with
  | VUndefined => Ok (mkError "Error" "")
  | _ => (m <- to_string x ;; Ok (mkError "Error" m))%result
  end.

(** ** Object construction *)

Definition object := list (string * value).

(** [o[k] = v]: an existing key keeps its place, a new key goes last. *)
Fixpoint set_prop (o : object) (k : string) (v : value) : object :=
  match o with
  | [] => [(k, v)]
  | (k', v') :: rest =>
      if (k' =? k)%string then (k', v) :: rest
      else (k', v') :: set_prop rest k v
  end.

Definition define_all (o : object) (ps : object) : object :=
  fold_left (fun acc p => set_prop acc (fst p) (snd p)) ps o.

(** An object literal: its initialisers are evaluated in source order, each
    contributing the properties it defines. *)
Fixpoint object_literal_from (acc : object) (inits : list (result object))
  : result object :=
  match inits with
  | [] => Ok acc
  | i :: rest =>
      (ps <- i ;; object_literal_from (define_all acc ps) rest)%result
  end.

Definition object_literal := object_literal_from [].

(** [k: e]. *)
Definition field (k : string) (e : result value) : result object :=
  (v <- e ;; Ok [(k, v)])%result.

(** [...(c && { ... })]: spreading [false] defines nothing. *)
Definition spread_when (c : result bool) (o : result object)
  : result object :=
  (b <- c ;; if b : bool then o else Ok [])%result.

(** ** The field mapper and the empty-value filter *)

Section Payload.

Variable formData : value.

(** [formData.k] *)
Definition fd (k : string) : result value := member formData k.

(** [formData.document_status?.k] *)
Definition doc (k : string) : result value :=
  (ds <- fd "document_status" ;; Ok (opt_member ds k))%result.

(** [formData.k || dflt] *)
Definition fd_or (k : string) (dflt : value) : result value :=
  (v <- fd k ;; Ok (js_or v dflt))%result.

(** [formData.direction === lit] *)
Definition direction_is (lit : string) : result bool :=
  (d <- fd "direction" ;; Ok (strict_eq_str d lit))%result.

Definition rawPayload : result object :=
  object_literal
    [ (* Contact Information *)
      field "first_name" (fd "first_name");
      field "last_name" (fd "last_name");
      field "email" (fd "email");
      field "phone" (fd "phone");
      field "company_name" (fd "company_name");
      field "customer_type" (fd "customer_type");
      field "consent_checkbox" (fd "consent_checkbox");
      (* Classification *)
      field "direction" (fd "direction");
      (* Import Timing (conditional) *)
      spread_when (direction_is "import")
        (object_literal
           [ field "goods_location" (fd "goods_location");
             field "arrival_method" (fd "arrival_method");
             field "arrival_timeline" (fd "arrival_timeline");
             field "customs_code_status" (fd "customs_code_status");
             field "customs_code_number" (fd "customs_code_number") ]);
      (* Export-Specific (conditional) *)
      spread_when (direction_is "export")
        (object_literal
           [ field "export_service_needed" (fd "export_service_needed");
             field "destination_country" (fd "destination_country") ]);
      (* Service Classification *)
      field "shipping_payment" (fd "shipping_payment");
      field "local_delivery" (fd "local_delivery");
      field "needs_port_delivery" (fd "needs_port_delivery");
      field "delivery_address" (fd "delivery_address");
      field "shipment_method" (fd "shipment_method");
      field "container_type" (fd "container_type");
      field "air_weight_category" (fd "air_weight_category");
      (* Cargo Details *)
      field "cargo_type" (fd "cargo_type");
      field "cargo_details" (fd "cargo_details");
      field "other_cargo_description" (fd "other_cargo_description");
      field "personal_item_condition" (fd "personal_item_condition");
      field "personal_item_mixed" (fd_or "personal_item_mixed" (VBool false));
      field "requires_temperature_control"
        (fd_or "requires_temperature_control" (VBool false));
      (* Packing Information *)
      field "packing_info_combined" (fd "packing_info_combined");
      (* Document Status Tracking *)
      field "air_waybill_status" (doc "air_waybill");
      field "bill_of_lading_status" (doc "bill_of_lading");
      field "courier_receipt_status" (doc "courier_receipt");
      field "commercial_invoice_status" (doc "commercial_invoice");
      field "packing_list_status" (doc "packing_list");
      field "export_declaration_status" (doc "export_declaration");
      field "msds_status" (doc "msds");
      (* System Fields *)
      field "status" (fd_or "status" (VStr "completed"));
      field "session_id" (fd "session_id");
      (* Email Automation Tracking *)
      field "reminder_sent" (Ok (VBool false));
      field "follow_up_sent" (Ok (VBool false));
      field "sales_manager_notified" (Ok (VBool false));
      field "email_sequence_stage" (Ok (VStr "none")) ].

End Payload.

(** The condition of the filter loop:
    [typeof value === 'boolean' ||
     (value !== '' && value !== undefined && value !== null)]. *)
Definition keep (v : value) : bool :=
  is_boolean v
  || (negb (is_empty_string v)
      && negb (match v with VUndefined => true | _ => false end)
      && negb (match v with VNull => true | _ => false end)).

Definition keep_entry (kv : string * value) : bool := keep (snd kv).

(** [for (const [key, value] of Object.entries(rawPayload))
       if (...) cleanedFields[key] = value;]
    starting from the empty object. *)
Definition cleanedFields (raw : object) : object :=
  fold_left
    (fun cleaned kv => if keep (snd kv) then set_prop cleaned (fst kv) (snd kv)
                       else cleaned)
    raw [].

(** The Outbound Record Payload of an inbound body. *)
Definition outbound_payload (formData : value) : result object :=
  (raw <- rawPayload formData ;; Ok (cleanedFields raw))%result.

(** ** The world of the handler *)

Record request : Type := mkRequest { req_method : string; req_body : value }.

(** [process.env]: a variable is a string or is not set. *)
Record environment : Type := mkEnv {
  AIRTABLE_API_KEY : option string;
  AIRTABLE_BASE_ID : option string
}.

(** The argument of [fetch]; [fr_body] is the value handed to
    [JSON.stringify]. *)
Record fetch_request : Type := mkFetch {
  fr_url : string;
  fr_method : string;
  fr_headers : list (string * string);
  fr_body : value
}.

(** What the handler uses of a [Response]: [ok] is derived from the status,
    [json()] resolves to the parsed body or rejects. *)
Record fetch_response : Type := mkResponse {
  status : Z;
  json : result value
}.

Definition response_ok (r : fetch_response) : bool :=
  (200 <=? status r) && (status r <=? 299).

Inductive fetch_outcome : Type :=
| Resolved (r : fetch_response)
| Rejected (e : js_error).

Inductive sent_body : Type :=
| NotSent
| Ended
| Json (data : value).

(** The [res] object. *)
Record res_state : Type := mkRes {
  headers : list (string * string);
  statusCode : Z;
  sent : sent_body
}.

Inductive logged : Type :=
| LogValue (v : value)
| LogError (e : js_error).

Record world : Type := mkWorld {
  res : res_state;
  console : list (string * logged);
  calls : list (fetch_request * fetch_outcome)
}.

Definition initial_world : world :=
  mkWorld (mkRes [] 200 NotSent) [] [].

Definition M (A : Type) : Type := world -> result A * world.

Definition ret {A} (a : A) : M A := fun w => (Ok a, w).

Definition bind {A B} (m : M A) (k : A -> M B) : M B :=
  fun w =>
    match m w with
    | (Ok a, w') => k a w'
    | (Throw e, w') => (Throw e, w')
    end.

Definition throw {A} (e : js_error) : M A := fun w => (Throw e, w).

Definition lift {A} (r : result A) : M A := fun w => (r, w).

(** [try { m } catch (error) { h error }]: the effects of [m] up to
    the throw stay. *)
Definition try_catch {A} (m : M A) (h : js_error -> M A) : M A :=
  fun w =>
    match m w with
    | (Ok a, w') => (Ok a, w')
    | (Throw e, w') => h e w'
    end.

Declare Scope M_scope.
Delimit Scope M_scope with M.
Notation "x <- m ;; k" := (bind m (fun x => k))
  (at level 61, m at next level, right associativity) : M_scope.
Notation "m ;; k" := (bind m (fun _ => k))
  (at level 61, right associativity) : M_scope.

Definition update_res (f : res_state -> res_state) : M unit :=
  fun w => (Ok tt, mkWorld (f (res w)) (console w) (calls w)).

Definition res_setHeader (name v : string) : M unit :=
  update_res (fun r => mkRes (headers r ++ [(name, v)]) (statusCode r) (sent r)).

Definition res_status (code : Z) : M unit :=
  update_res (fun r => mkRes (headers r) code (sent r)).

Definition res_json (data : value) : M unit :=
  update_res (fun r => mkRes (headers r) (statusCode r) (Json data)).

Definition res_end : M unit :=
  update_res (fun r => mkRes (headers r) (statusCode r) Ended).

Definition console_error (label : string) (x : logged) : M unit :=
  fun w => (Ok tt, mkWorld (res w) (console w ++ [(label, x)]) (calls w)).

(** ** The handler *)

Section Handler.

(** [process.env] and the upstream service behind the global [fetch]. *)
Variable env : environment.
Variable upstream : fetch_request -> fetch_outcome.

(** [await fetch(url, init)]: the call is recorded with its outcome. *)
Definition fetch (rq : fetch_request) : M fetch_response :=
  fun w =>
    let o := upstream rq in
    (match o with
     | Resolved r => Ok r
     | Rejected e => Throw e
     end,
     mkWorld (res w) (console w) (calls w ++ [(rq, o)])).

(** [!s] and [s || dflt] on an environment variable. *)
Definition env_unset (o : option string) : bool :=
  match o with
  | Some s => (s =? "")%string
  | None => true
  end.

Definition env_or (o : option string) (dflt : string) : string :=
  match o with
  | Some s => if (s =? "")%string then dflt else s
  | None => dflt
  end.

Definition env_string (o : option string) : string :=
  match o with
  | Some s => s
  | None => "undefined"
  end.

Definition AIRTABLE_TABLE_NAME : string := "Form Submissions".

Definition collection_url (base_id : string) : string :=
  "https://api.airtable.com/v0/" ++ base_id ++ "/"
  ++ encodeURIComponent AIRTABLE_TABLE_NAME.

Definition record_url (base_id record_id : string) : string :=
  "https://api.airtable.com/v0/" ++ base_id ++ "/"
  ++ encodeURIComponent AIRTABLE_TABLE_NAME ++ "/" ++ record_id.

(** The [try] block up to the call of [fetch]: reading the request and the
    configuration and building the arguments of the call, none of which has
    an effect other than a throw. *)
Definition airtable_request (req : request) : result fetch_request :=
  (let formData := req_body req in
   recordId <- member formData "airtable_record_id" ;;
   let base_id := env_or (AIRTABLE_BASE_ID env) "appTll6JoqW04YvJs" in
   if env_unset (AIRTABLE_API_KEY env) then
     e <- new_Error (VStr "AirTable API key not configured") ;;
     Throw e
   else
     raw <- rawPayload formData ;;
     let airtablePayload := VObj [("fields", VObj (cleanedFields raw))] in
     let isUpdate :=
       js_and recordId (VBool (negb (is_empty_string recordId))) in
     airtableUrl <-
       (if truthy isUpdate
        then id <- to_string recordId ;; Ok (record_url base_id id)
        else Ok (collection_url base_id)) ;;
     Ok (mkFetch airtableUrl
           (if truthy isUpdate then "PATCH" else "POST")
           [("Authorization", "Bearer " ++ env_string (AIRTABLE_API_KEY env));
            ("Content-Type", "application/json")]
           airtablePayload))%result.

(** The [try] block after the call of [fetch]. *)
Definition respond (response : fetch_response) : M unit :=
  (if negb (response_ok response) then
     errorData <- lift (json response) ;;
     console_error "AirTable API Error:" (LogValue errorData) ;;
     err <- lift (member errorData "error") ;;
     e <- lift (new_Error (js_or (opt_member err "message")
                              (VStr "Failed to submit to AirTable"))) ;;
     throw e
   else
     result <- lift (json response) ;;
     res_status 200 ;;
     id <- lift (member result "id") ;;
     res_json (VObj [("success", VBool true);
                     ("recordId", id);
                     ("message", VStr "Form submitted successfully")]))%M.

Definition try_block (req : request) : M unit :=
  (rq <- lift (airtable_request req) ;;
   response <- fetch rq ;;
   respond response)%M.

Definition catch_block (error : js_error) : M unit :=
  (console_error "Submission error:" (LogError error) ;;
   res_status 500 ;;
   res_json (VObj [("success", VBool false);
                   ("error",
                    VStr (if (err_message error =? "")%string
                          then "Internal server error"
                          else err_message error))]))%M.

Definition submitToAirTable (req : request) : M unit :=
  (res_setHeader "Access-Control-Allow-Origin" "*" ;;
   res_setHeader "Access-Control-Allow-Methods" "POST, PATCH, OPTIONS" ;;
   res_setHeader "Access-Control-Allow-Headers" "Content-Type" ;;
   if (req_method req =? "OPTIONS")%string then
     res_status 200 ;; res_end
   else if negb (req_method req =? "POST")%string
           && negb (req_method req =? "PATCH")%string then
     res_status 405 ;;
     res_json (VObj [("success", VBool false);
                     ("error", VStr "Method not allowed")])
   else
     try_catch (try_block req) catch_block)%M.

(** One run of the handler on a fresh [res]. *)
Definition handle (req : request) : result unit * world :=
  submitToAirTable req initial_world.

End Handler.

(** ** Vocabulary of the properties *)

(** The empty string, [undefined] or [null]. *)
Definition is_blank (v : value) : bool := is_empty_string v || is_nullish v.

Definition import_keys : list string :=
  ["goods_location"; "arrival_method"; "arrival_timeline";
   "customs_code_status"; "customs_code_number"].

Definition export_keys : list string :=
  ["export_service_needed"; "destination_country"].

(** Payload key and the sub-key of [document_status] it is read from. *)
Definition document_keys : list (string * string) :=
  [("air_waybill_status", "air_waybill");
   ("bill_of_lading_status", "bill_of_lading");
   ("courier_receipt_status", "courier_receipt");
   ("commercial_invoice_status", "commercial_invoice");
   ("packing_list_status", "packing_list");
   ("export_declaration_status", "export_declaration");
   ("msds_status", "msds")].

Fixpoint sub_key (k : string) (l : list (string * string)) : option string :=
  match l with
  | [] => None
  | (k', s) :: rest => if (k' =? k)%string then Some s else sub_key k rest
  end.

(** The inbound value behind a payload key: the sub-key of
    [document_status] for the seven document keys, the field of the same
    name otherwise. *)
Definition inbound_value (formData : value) (k : string) : value :=
  match sub_key k document_keys with
  | Some s => opt_member (prop formData "document_status") s
  | None => prop formData k
  end.

(** The entries of [rawPayload] once every read of [formData] has
    succeeded. *)
Definition raw_fields (formData : value) : object :=
  let f k := (k, prop formData k) in
  let d (k s : string) := (k, opt_member (prop formData "document_status") s) in
  ([ f "first_name"; f "last_name"; f "email"; f "phone"; f "company_name";
     f "customer_type"; f "consent_checkbox"; f "direction" ]
   ++ (if strict_eq_str (prop formData "direction") "import"
       then map f import_keys else [])
   ++ (if strict_eq_str (prop formData "direction") "export"
       then map f export_keys else [])
   ++ [ f "shipping_payment"; f "local_delivery"; f "needs_port_delivery";
        f "delivery_address"; f "shipment_method"; f "container_type";
        f "air_weight_category"; f "cargo_type"; f "cargo_details";
        f "other_cargo_description"; f "personal_item_condition";
        ("personal_item_mixed",
         js_or (prop formData "personal_item_mixed") (VBool false));
        ("requires_temperature_control",
         js_or (prop formData "requires_temperature_control") (VBool false));
        f "packing_info_combined" ]
   ++ map (fun ks => d (fst ks) (snd ks)) document_keys
   ++ [ ("status", js_or (prop formData "status") (VStr "completed"));
        f "session_id";
        ("reminder_sent", VBool false);
        ("follow_up_sent", VBool false);
        ("sales_manager_notified", VBool false);
        ("email_sequence_stage", VStr "none") ])%list.

(** The keys [rawPayload] copies from the field of the same name. *)
Definition verbatim_keys : list string :=
  ["first_name"; "last_name"; "email"; "phone"; "company_name";
   "customer_type"; "consent_checkbox"; "direction";
   "shipping_payment"; "local_delivery"; "needs_port_delivery";
   "delivery_address"; "shipment_method"; "container_type";
   "air_weight_category"; "cargo_type"; "cargo_details";
   "other_cargo_description"; "personal_item_condition";
   "packing_info_combined"; "session_id"].

(** The two flags that default to [false]. *)
Definition flag_keys : list string :=
  ["personal_item_mixed"; "requires_temperature_control"].

Definition tracking_keys : list string :=
  ["reminder_sent"; "follow_up_sent"; "sales_manager_notified";
   "email_sequence_stage"].

(** Every key the object literal of [rawPayload] can define. *)
Definition payload_keys : list string :=
  (verbatim_keys ++ import_keys ++ export_keys ++ flag_keys
   ++ map fst document_keys ++ ["status"] ++ tracking_keys)%list.

(** [error.message || 'Internal server error'], the text the [catch]
    block sends. *)
Definition error_text (e : js_error) : string :=
  if (err_message e =? "")%string then "Internal server error"
  else err_message e.

Fixpoint keys_distinct (l : list string) : bool :=
  match l with
  | [] => true
  | k :: rest => negb (existsb (String.eqb k) rest) && keys_distinct rest
  end.

Definition cors_headers : list (string * string) :=
  [("Access-Control-Allow-Origin", "*");
   ("Access-Control-Allow-Methods", "POST, PATCH, OPTIONS");
   ("Access-Control-Allow-Headers", "Content-Type")].

(** The world once the three CORS headers are set. *)
Definition after_headers : world :=
  mkWorld (mkRes cors_headers 200 NotSent) [] [].

(** [w] with one more outbound call on record. *)
Definition with_call (w : world) (rq : fetch_request) (o : fetch_outcome)
  : world :=
  mkWorld (res w) (console w) (calls w ++ [(rq, o)]).

(** The body [{success: false, error: m}]. *)
Definition failure_body (m : string) : value :=
  VObj [("success", VBool false); ("error", VStr m)].

(** The body [{success: true, recordId: id, message: ...}]. *)
Definition success_body (id : value) : value :=
  VObj [("success", VBool true); ("recordId", id);
        ("message", VStr "Form submitted successfully")].

(** The world the [catch] block leaves: a 500 with the text of the error,
    which is logged last. *)
Definition caught (e : js_error) (hdrs : list (string * string))
  (logs : list (string * logged)) (cs : list (fetch_request * fetch_outcome))
  : world :=
  mkWorld (mkRes hdrs 500 (Json (failure_body (error_text e))))
    (logs ++ [("Submission error:", LogError e)]) cs.

End Relay.

(** ** A concrete runtime: Node.js

    The wording of V8's [TypeError]s, and integer-valued numbers (below
    [10^21] in magnitude, which print in plain decimal; truthy unless zero),
    for running the handler on concrete requests. *)

Module Node.

Definition num : Type := Z.

Definition cannot_read (v : @value num) (k : string) : string :=
  "Cannot read properties of "
  ++ match v with VNull => "null" | _ => "undefined" end
  ++ " (reading '" ++ k ++ "')".

#[global] Instance runtime : Runtime num := {
  number_truthy z := negb (z =? 0);
  number_to_string z := DecimalString.NilZero.string_of_int (Z.to_int z);
  msg_cannot_read := cannot_read;
  msg_no_primitive := "Cannot convert object to primitive value"
}.

(** An upstream that answers every call with the same response. *)
Definition always (r : @fetch_response num)
  : @fetch_request num -> @fetch_outcome num :=
  fun _ => Resolved r.

(** Sample configurations, bodies and upstream answers. *)

Definition configured : environment := mkEnv (Some "key123") None.
Definition unconfigured : environment := mkEnv None None.

Definition import_body : @value num :=
  VObj [("first_name", VStr "Ann");
        ("direction", VStr "import");
        ("goods_location", VStr "port");
        ("arrival_method", VStr "sea");
        ("arrival_timeline", VStr "");
        ("customs_code_status", VStr "have");
        ("customs_code_number", VStr "C-17");
        ("destination_country", VStr "NZ");
        ("document_status", VObj [("msds", VStr "have")])].

Definition export_body : @value num :=
  VObj [("direction", VStr "export");
        ("export_service_needed", VStr "freight");
        ("destination_country", VStr "NZ");
        ("goods_location", VStr "port");
        ("reminder_sent", VBool true);
        ("email_sequence_stage", VStr "second")].

Definition blank_status_body : @value num := VObj [("status", VStr "")].

Definition update_body : @value num :=
  VObj [("email", VStr "ann@example.org");
        ("airtable_record_id", VStr "rec1")].

Definition create_body : @value num :=
  VObj [("email", VStr "ann@example.org"); ("airtable_record_id", VStr "")].

Definition created : @fetch_response num :=
  mkResponse 200 (Ok (VObj [("id", VStr "rec123")])).

Definition invalid_field : @fetch_response num :=
  mkResponse 422
    (Ok (VObj [("error", VObj [("type", VStr "INVALID_REQUEST");
                               ("message", VStr "Invalid field")])])).

Definition not_found : @fetch_response num :=
  mkResponse 404 (Ok (VObj [("error", VStr "NOT_FOUND")])).

Definition empty_message : @fetch_response num :=
  mkResponse 422 (Ok (VObj [("error", VObj [("message", VStr "")])])).

Definition null_error : @fetch_response num := mkResponse 502 (Ok VNull).

Definition syntax_error : js_error :=
  mkError "SyntaxError" "Unexpected token < in JSON at position 0".

(** A gateway page instead of JSON: [json()] rejects. *)
Definition html_error : @fetch_response num :=
  mkResponse 503 (Throw syntax_error).

(** A 2xx answer whose body is not JSON. *)
Definition html_success : @fetch_response num :=
  mkResponse 200 (Throw syntax_error).

(** A 2xx answer whose JSON body is [null]. *)
Definition null_success : @fetch_response num := mkResponse 200 (Ok VNull).

(** A non-2xx answer whose [error.message] is the empty array: truthy, and
    the empty string once converted. *)
Definition array_message : @fetch_response num :=
  mkResponse 400 (Ok (VObj [("error", VObj [("message", VArr [])])])).

Definition fetch_failed : js_error := mkError "TypeError" "fetch failed".

(** An upstream that cannot be reached. *)
Definition unreachable : @fetch_request num -> @fetch_outcome num :=
  fun _ => Rejected fetch_failed.

Definition other_key : environment := mkEnv (Some "key456") (Some "appOther").

Definition numeric_id_body : @value num :=
  VObj [("airtable_record_id", VNum 42)].

Definition object_id_body : @value num :=
  VObj [("airtable_record_id", VObj [("toString", VStr "rec1")])].

Definition full_body : @value num :=
  VObj [("first_name", VStr "Ann");
        ("last_name", VStr "");
        ("consent_checkbox", VBool false);
        ("direction", VStr "transit");
        ("goods_location", VStr "port");
        ("destination_country", VStr "NZ");
        ("personal_item_mixed", VStr "yes");
        ("status", VStr "draft");
        ("document_status",
         VObj [("msds", VStr "have"); ("packing_list", VStr "")]);
        ("airtable_record_id", VStr "rec1");
        ("unknown_field", VStr "x")].

Definition raw_sample : @object num :=
  [("a", VStr ""); ("b", VBool false); ("c", VNull); ("d", VNum 0);
   ("e", VUndefined); ("f", VStr "x")].

End Node.

(** * Properties *)

Section RelayFacts.

Context {number : Type} {runtime : Runtime number}.

Local Abbreviation value := (@value number).
Local Abbreviation object := (@object number).
Local Abbreviation request := (@request number).
Local Abbreviation world := (@world number).
Local Abbreviation fetch_request := (@fetch_request number).
Local Abbreviation fetch_response := (@fetch_response number).
Local Abbreviation fetch_outcome := (@fetch_outcome number).

(** ** Objects *)

Lemma member_ok (v : value) (k : string) :
  is_nullish v = false -> member v k = Ok (prop v k).
Proof. unfold member. now intros ->. Qed.

Lemma lookup_not_in (k : string) (o : object) :
  ~ In k (map fst o) -> lookup k o = None.
Proof.
  induction o as [|[k' v'] o IH]; cbn; intros Hn; [reflexivity|].
  destruct (String.eqb_spec k' k) as [->|_]; [now destruct Hn; left|].
  apply IH. intros Hin. apply Hn. now right.
Qed.

Lemma lookup_in (k : string) (v : value) (o : object) :
  lookup k o = Some v -> In (k, v) o.
Proof.
  induction o as [|[k' v'] o IH]; cbn; [discriminate|].
  destruct (String.eqb_spec k' k) as [->|_].
  - intros [= ->]. now left.
  - intros H. right. now apply IH.
Qed.

Lemma set_prop_fresh (o : object) (k : string) (v : value) :
  ~ In k (map fst o) -> set_prop o k v = (o ++ [(k, v)])%list.
Proof.
  induction o as [|[k' v'] o IH]; cbn; intros Hn; [reflexivity|].
  destruct (String.eqb_spec k' k) as [->|_]; [now destruct Hn; left|].
  f_equal. apply IH. intros Hin. apply Hn. now right.
Qed.

Lemma in_keys_filter (k : string) (o : object) :
  In k (map fst (filter keep_entry o)) -> In k (map fst o).
Proof.
  rewrite !in_map_iff. intros [kv [Hk Hin]]. exists kv.
  apply filter_In in Hin. tauto.
Qed.

(** The filter loop, run from any accumulator whose keys the remaining
    entries do not repeat, appends the entries it keeps. *)
Lemma filter_loop (raw acc : object) :
  NoDup (map fst raw) ->
  (forall k, In k (map fst raw) -> ~ In k (map fst acc)) ->
  fold_left
    (fun cleaned kv => if keep (snd kv)
                       then set_prop cleaned (fst kv) (snd kv) else cleaned)
    raw acc
  = (acc ++ filter keep_entry raw)%list.
Proof.
  revert acc. induction raw as [|[k v] raw IH]; cbn; intros acc Hnd Hfresh.
  - now rewrite app_nil_r.
  - inversion Hnd as [|? ? Hk Hnd']; subst.
    unfold keep_entry at 1. cbn. destruct (keep v).
    + rewrite set_prop_fresh by (apply Hfresh; now left).
      rewrite IH; [now rewrite <- app_assoc|assumption|].
      intros k' Hin. rewrite map_app, in_app_iff. cbn.
      intros [Hacc|[<-|[]]]; [|contradiction].
      apply (Hfresh k'); [now right|assumption].
    + apply IH; [assumption|]. intros k' Hin. apply Hfresh. now right.
Qed.

Lemma cleanedFields_filter (raw : object) :
  NoDup (map fst raw) -> cleanedFields raw = filter keep_entry raw.
Proof.
  intros Hnd. unfold cleanedFields. rewrite filter_loop; auto.
Qed.

Lemma lookup_filter (k : string) (o : object) :
  NoDup (map fst o) ->
  lookup k (filter keep_entry o)
  = match lookup k o with
    | Some v => if keep v then Some v else None
    | None => None
    end.
Proof.
  induction o as [|[k' v'] o IH]; cbn; intros Hnd; [reflexivity|].
  inversion Hnd as [|? ? Hk Hnd']; subst.
  unfold keep_entry at 1. cbn.
  destruct (String.eqb_spec k' k) as [->|Hne].
  - destruct (keep v'); cbn.
    + now rewrite String.eqb_refl.
    + apply lookup_not_in. intros Hin. apply Hk. now apply in_keys_filter.
  - destruct (keep v'); cbn.
    + destruct (String.eqb_spec k' k); [contradiction|]. now apply IH.
    + now apply IH.
Qed.

Lemma keys_distinct_NoDup (l : list string) :
  keys_distinct l = true -> NoDup l.
Proof.
  induction l as [|k l IH]; cbn; intros H; constructor.
  - apply andb_prop in H as [H _]. intros Hin.
    apply negb_true_iff in H.
    assert (existsb (String.eqb k) l = true) as Hex.
    { apply existsb_exists. exists k. split; [assumption|].
      apply String.eqb_refl. }
    congruence.
  - apply IH. now apply andb_prop in H as [_ H].
Qed.

(** ** The field mapper *)

Lemma rawPayload_ok (body : value) :
  is_nullish body = false -> rawPayload body = Ok (raw_fields body).
Proof.
  intros H.
  unfold rawPayload, raw_fields, fd_or, doc,
    direction_is, fd, member.
  rewrite H.
  destruct (strict_eq_str (prop body "direction") "import") eqn:Ei;
  destruct (strict_eq_str (prop body "direction") "export") eqn:Ee;
  cbn; rewrite ?Ei, ?Ee; reflexivity.
Qed.

Lemma rawPayload_nullish (body : value) :
  is_nullish body = true ->
  rawPayload body = Throw (type_error (msg_cannot_read body "first_name")).
Proof.
  intros H.
  unfold rawPayload, field, fd, member.
  rewrite H. reflexivity.
Qed.

Lemma raw_fields_NoDup (body : value) : NoDup (map fst (raw_fields body)).
Proof.
  apply keys_distinct_NoDup. unfold raw_fields.
  destruct (strict_eq_str (prop body "direction") "import");
  destruct (strict_eq_str (prop body "direction") "export");
  vm_compute; reflexivity.
Qed.

Lemma outbound_payload_ok (body : value) :
  is_nullish body = false ->
  outbound_payload body = Ok (filter keep_entry (raw_fields body)).
Proof.
  intros H. unfold outbound_payload.
  rewrite rawPayload_ok by assumption. cbn [rbind].
  now rewrite cleanedFields_filter by apply raw_fields_NoDup.
Qed.

Lemma lookup_payload (body : value) (k : string) :
  lookup k (filter keep_entry (raw_fields body))
  = match lookup k (raw_fields body) with
    | Some v => if keep v then Some v else None
    | None => None
    end.
Proof. apply lookup_filter, raw_fields_NoDup. Qed.

(** ** The filter *)

Lemma keep_spec (v : value) : keep v = is_boolean v || negb (is_blank v).
Proof. destruct v as [| | | |[|]| |]; reflexivity. Qed.

Lemma keep_not_blank (v : value) : is_blank v = false -> keep v = true.
Proof. rewrite keep_spec. intros ->. apply orb_true_r. Qed.

Lemma keep_boolean (b : bool) : keep (VBool b : value) = true.
Proof. reflexivity. Qed.

Lemma blank_falsy (v : value) : is_blank v = true -> truthy v = false.
Proof. destruct v as [| | | |[|]| |]; cbn; congruence. Qed.

Lemma prop_nullish (v : value) (k : string) :
  is_nullish v = true -> prop v k = VUndefined.
Proof. destruct v; cbn; congruence. Qed.

Lemma prop_string_not_nullish (body : value) (k s : string) :
  prop body k = VStr s -> is_nullish body = false.
Proof. destruct body; cbn; congruence. Qed.

(** Evaluates a lookup of a literal key in [raw_fields], whatever the
    direction. *)
Ltac raw_lookup body :=
  unfold raw_fields;
  destruct (strict_eq_str (prop body "direction") "import");
  destruct (strict_eq_str (prop body "direction") "export");
  reflexivity.

Lemma raw_lookup_document (body : value) (key sub : string) :
  In (key, sub) document_keys ->
  lookup key (raw_fields body)
  = Some (opt_member (prop body "document_status") sub).
Proof.
  intros Hin. cbn in Hin.
  repeat (destruct Hin as [[= <- <-]|Hin]; [raw_lookup body|]).
  contradiction.
Qed.

Lemma raw_lookup_flag (body : value) (k : string) :
  In k ["personal_item_mixed"; "requires_temperature_control"] ->
  lookup k (raw_fields body) = Some (js_or (prop body k) (VBool false)).
Proof.
  intros Hin. cbn in Hin.
  repeat (destruct Hin as [<-|Hin]; [raw_lookup body|]).
  contradiction.
Qed.

Lemma raw_lookup_status (body : value) :
  lookup "status" (raw_fields body)
  = Some (js_or (prop body "status") (VStr "completed")).
Proof. raw_lookup body. Qed.

Lemma raw_lookup_tracking (body : value) :
  lookup "reminder_sent" (raw_fields body) = Some (VBool false)
  /\ lookup "follow_up_sent" (raw_fields body) = Some (VBool false)
  /\ lookup "sales_manager_notified" (raw_fields body) = Some (VBool false)
  /\ lookup "email_sequence_stage" (raw_fields body) = Some (VStr "none").
Proof. repeat split; raw_lookup body. Qed.

(** Every raw entry that passes the filter over a blank inbound value is a
    boolean, or one of the two keys that carry a fixed non-boolean
    default. *)
Lemma raw_entry_blank (body : value) (k : string) (v : value) :
  In (k, v) (raw_fields body) ->
  keep v = true ->
  is_blank (inbound_value body k) = true ->
  is_boolean v = true \/ k = "status" \/ k = "email_sequence_stage".
Proof.
  unfold raw_fields.
  destruct (strict_eq_str (prop body "direction") "import");
  destruct (strict_eq_str (prop body "direction") "export");
  cbn -[prop opt_member js_or keep is_blank is_boolean];
  intros Hin Hkeep Hblank;
  repeat (destruct Hin as [[= <- <-]|Hin];
          [ try (right; auto; fail); left;
            cbn -[prop opt_member is_blank] in Hblank;
            rewrite keep_spec in Hkeep;
            try (rewrite Hblank in Hkeep; now rewrite orb_false_r in Hkeep);
            try (unfold js_or;
                 now rewrite (blank_falsy _ Hblank));
            reflexivity
          | ]);
  contradiction.
Qed.

(** ** The Outbound Record Payload *)

(** C1, as amended. Whenever the inbound body can be mapped, no payload
    value is the empty string, [undefined] or [null], and a key whose
    inbound value was one of these appears in the payload only with a
    boolean value, or is [status] (defaulted to ["completed"]) or
    [email_sequence_stage] (fixed to ["none"]). *)
Theorem payload_blank_keys (body : value) :
  is_nullish body = false ->
  exists fields,
    outbound_payload body = Ok fields
    /\ forall k v,
         lookup k fields = Some v ->
         is_blank v = false
         /\ (is_blank (inbound_value body k) = true ->
             is_boolean v = true
             \/ k = "status" \/ k = "email_sequence_stage").
Proof.
  intros Hbody. exists (filter keep_entry (raw_fields body)).
  split; [now apply outbound_payload_ok|].
  intros k v Hlk. rewrite lookup_payload in Hlk.
  destruct (lookup k (raw_fields body)) as [v'|] eqn:Hraw; [|discriminate].
  destruct (keep v') eqn:Hkeep; [|discriminate].
  injection Hlk as ->. apply lookup_in in Hraw. split.
  - rewrite keep_spec in Hkeep. destruct v as [| | | |[|]| |]; cbn in *;
      congruence.
  - intros Hin. exact (raw_entry_blank body k v Hraw Hkeep Hin).
Qed.

(** C2. With [direction] equal to ["import"] the payload carries each of
    the five import keys whose inbound value is present and non-empty, with
    that value, and neither export key; with [direction] equal to
    ["export"] it carries each of the two export keys whose inbound value is
    present and non-empty, and none of the five import keys. *)
Theorem payload_direction_fields (body : value) :
  (prop body "direction" = VStr "import" ->
   exists fields,
     outbound_payload body = Ok fields
     /\ (forall k, In k import_keys -> is_blank (prop body k) = false ->
                   lookup k fields = Some (prop body k))
     /\ (forall k, In k export_keys -> lookup k fields = None))
  /\ (prop body "direction" = VStr "export" ->
      exists fields,
        outbound_payload body = Ok fields
        /\ (forall k, In k export_keys -> is_blank (prop body k) = false ->
                      lookup k fields = Some (prop body k))
        /\ (forall k, In k import_keys -> lookup k fields = None)).
Proof.
  split; intros Hdir;
    exists (filter keep_entry (raw_fields body));
    (split; [apply outbound_payload_ok;
             now apply (prop_string_not_nullish body "direction" _ Hdir)|]);
    split; intros k Hin; try intros Hpresent; rewrite lookup_payload;
    unfold raw_fields; rewrite Hdir; cbn in Hin;
    repeat (destruct Hin as [<-|Hin];
            [ cbn -[prop keep opt_member js_or];
              rewrite ?Hdir; try rewrite (keep_not_blank _ Hpresent);
              reflexivity | ]);
    contradiction.
Qed.

(** C6. In the payload of every inbound body that can be mapped,
    [personal_item_mixed] and [requires_temperature_control] are [false]
    when absent from the input, [status] is ["completed"] when absent, and
    the four automation-tracking fields are [false], [false], [false] and
    ["none"] whatever the input holds. *)
Theorem payload_defaults (body : value) :
  is_nullish body = false ->
  exists fields,
    outbound_payload body = Ok fields
    /\ (prop body "personal_item_mixed" = VUndefined ->
        lookup "personal_item_mixed" fields = Some (VBool false))
    /\ (prop body "requires_temperature_control" = VUndefined ->
        lookup "requires_temperature_control" fields = Some (VBool false))
    /\ (prop body "status" = VUndefined ->
        lookup "status" fields = Some (VStr "completed"))
    /\ lookup "reminder_sent" fields = Some (VBool false)
    /\ lookup "follow_up_sent" fields = Some (VBool false)
    /\ lookup "sales_manager_notified" fields = Some (VBool false)
    /\ lookup "email_sequence_stage" fields = Some (VStr "none").
Proof.
  intros Hbody. exists (filter keep_entry (raw_fields body)).
  split; [now apply outbound_payload_ok|].
  destruct (raw_lookup_tracking body) as (Hr & Hf & Hs & He).
  rewrite !lookup_payload, Hr, Hf, Hs, He, raw_lookup_status.
  rewrite !raw_lookup_flag by (cbn; tauto).
  repeat split; try reflexivity; intros ->; reflexivity.
Qed.

(** C10. When [document_status] is absent or lacks sub-keys the mapping
    still succeeds: each of the seven derived keys whose source sub-key is
    missing is absent from the payload, and none of them is ever present
    with a [null] or [undefined] value. *)
Theorem payload_document_status (body : value) :
  is_nullish body = false ->
  exists fields,
    outbound_payload body = Ok fields
    /\ forall key sub,
         In (key, sub) document_keys ->
         (opt_member (prop body "document_status") sub = VUndefined ->
          lookup key fields = None)
         /\ (forall v, lookup key fields = Some v -> is_nullish v = false).
Proof.
  intros Hbody. exists (filter keep_entry (raw_fields body)).
  split; [now apply outbound_payload_ok|].
  intros key sub Hin. rewrite lookup_payload.
  rewrite (raw_lookup_document body key sub Hin). split.
  - intros ->. reflexivity.
  - intros v.
    destruct (keep (opt_member (prop body "document_status") sub)) eqn:Hk;
      [|discriminate].
    intros [= <-]. rewrite keep_spec in Hk.
    destruct (opt_member (prop body "document_status") sub);
      cbn in *; congruence.
Qed.

(** ** The handler, path by path *)

Section HandlerFacts.

Variable env : environment.
Variable upstream : fetch_request -> fetch_outcome.

Local Abbreviation run := (handle env upstream).
Local Abbreviation request_of := (airtable_request env).
Local Abbreviation base_id :=
  (env_or (AIRTABLE_BASE_ID env) "appTll6JoqW04YvJs").

Lemma handle_submit (req : request) :
  req_method req = "POST" \/ req_method req = "PATCH" ->
  run req
  = match request_of req with
    | Throw e => catch_block e after_headers
    | Ok rq =>
        match upstream rq with
        | Rejected e =>
            catch_block e (with_call after_headers rq (Rejected e))
        | Resolved r =>
            try_catch (respond r) catch_block
              (with_call after_headers rq (Resolved r))
        end
    end.
Proof.
  intros Hm. unfold handle, submitToAirTable.
  assert ((req_method req =? "OPTIONS")%string = false) as ->
    by (destruct Hm as [-> | ->]; reflexivity).
  assert (negb (req_method req =? "POST")%string
          && negb (req_method req =? "PATCH")%string = false) as ->
    by (destruct Hm as [-> | ->]; reflexivity).
  unfold try_block, try_catch, bind, lift, fetch. cbn.
  destruct (request_of req) as [rq|e]; [|reflexivity].
  destruct (upstream rq) as [r|e]; reflexivity.
Qed.

Lemma catch_block_run (e : js_error) (w : world) :
  catch_block e w
  = (Ok tt,
     mkWorld
       (mkRes (headers (res w)) 500
          (Json (failure_body
                   (if (err_message e =? "")%string
                    then "Internal server error" else err_message e))))
       (console w ++ [("Submission error:", LogError e)])
       (calls w)).
Proof. reflexivity. Qed.

(** Neither branch after the call touches the record of calls or the
    headers, and no error leaves the [catch]. *)
Lemma respond_caught (r : fetch_response) (w : world) :
  let out := try_catch (respond r) catch_block w in
  fst out = Ok tt
  /\ calls (snd out) = calls w
  /\ headers (res (snd out)) = headers (res w).
Proof.
  unfold respond, try_catch, bind, lift, throw.
  destruct (negb (response_ok r)); cbn;
    destruct (json r) as [d|e]; cbn; auto;
    unfold member; destruct (is_nullish d); cbn; auto.
  destruct (new_Error _) as [e|e]; cbn; auto.
Qed.

(** The handler always returns, having recorded at most one call. *)
Lemma handle_submit_total (req : request) :
  req_method req = "POST" \/ req_method req = "PATCH" ->
  fst (run req) = Ok tt
  /\ headers (res (snd (run req))) = cors_headers
  /\ (calls (snd (run req)) = []
      \/ exists rq, request_of req = Ok rq
                    /\ calls (snd (run req)) = [(rq, upstream rq)]).
Proof.
  intros Hm. rewrite handle_submit by assumption.
  destruct (request_of req) as [rq|e].
  - destruct (upstream rq) as [r|e] eqn:Hup.
    + destruct (respond_caught r (with_call after_headers rq (Resolved r)))
        as (H1 & H2 & H3).
      repeat split; [assumption|assumption|].
      right. exists rq. split; [reflexivity|]. rewrite H2, Hup. reflexivity.
    + repeat split. right. exists rq. split; [reflexivity|].
      rewrite Hup. reflexivity.
  - repeat split. now left.
Qed.

(** The handler always returns, with the CORS headers set, having
    recorded at most one call. *)
Lemma handle_total (req : request) :
  fst (run req) = Ok tt
  /\ headers (res (snd (run req))) = cors_headers
  /\ (calls (snd (run req)) = []
      \/ exists rq, request_of req = Ok rq
                    /\ calls (snd (run req)) = [(rq, upstream rq)]).
Proof.
  destruct (String.eqb_spec (req_method req) "OPTIONS") as [Ho|Ho].
  { unfold handle, submitToAirTable. rewrite Ho. cbn. auto. }
  destruct (String.eqb_spec (req_method req) "POST") as [Hp|Hp];
    [apply handle_submit_total; now left|].
  destruct (String.eqb_spec (req_method req) "PATCH") as [Hq|Hq];
    [apply handle_submit_total; now right|].
  unfold handle, submitToAirTable.
  apply String.eqb_neq in Ho, Hp, Hq. rewrite Ho, Hp, Hq. cbn. auto.
Qed.

Lemma string_app_assoc (a b c : string) :
  ((a ++ b) ++ c = a ++ b ++ c)%string.
Proof. induction a as [|x a IH]; cbn; [reflexivity|now rewrite IH]. Qed.

Lemma record_url_collection (base id : string) :
  record_url base id = (collection_url base ++ "/" ++ id)%string.
Proof.
  unfold record_url, collection_url. now rewrite !string_app_assoc.
Qed.

(** *** Before the call *)

Lemma request_of_nullish (req : request) :
  is_nullish (req_body req) = true ->
  request_of req
  = Throw (type_error (msg_cannot_read (req_body req) "airtable_record_id")).
Proof.
  intros H. unfold airtable_request, member.
  now rewrite H.
Qed.

Lemma request_of_unset (req : request) :
  is_nullish (req_body req) = false ->
  env_unset (AIRTABLE_API_KEY env) = true ->
  request_of req = Throw (mkError "Error" "AirTable API key not configured").
Proof.
  intros Hb Hk. unfold airtable_request.
  rewrite member_ok by assumption. cbn [rbind]. now rewrite Hk.
Qed.

Lemma request_of_update (req : request) (id : string) :
  is_nullish (req_body req) = false ->
  env_unset (AIRTABLE_API_KEY env) = false ->
  prop (req_body req) "airtable_record_id" = VStr id ->
  id <> "" ->
  request_of req
  = Ok (mkFetch (record_url base_id id) "PATCH"
          [("Authorization", "Bearer " ++ env_string (AIRTABLE_API_KEY env));
           ("Content-Type", "application/json")]
          (VObj [("fields",
                  VObj (filter keep_entry (raw_fields (req_body req))))])).
Proof.
  intros Hb Hk Hid Hne. unfold airtable_request.
  rewrite member_ok, rawPayload_ok by assumption. cbn [rbind].
  rewrite Hk, Hid, cleanedFields_filter by apply raw_fields_NoDup.
  generalize (filter keep_entry (raw_fields (req_body req))) as fields.
  generalize base_id as base.
  generalize (env_string (AIRTABLE_API_KEY env)) as key.
  intros key base fields.
  destruct id as [|c id]; [contradiction|reflexivity].
Qed.

Lemma request_of_create (req : request) :
  is_nullish (req_body req) = false ->
  env_unset (AIRTABLE_API_KEY env) = false ->
  is_blank (prop (req_body req) "airtable_record_id") = true ->
  request_of req
  = Ok (mkFetch (collection_url base_id) "POST"
          [("Authorization", "Bearer " ++ env_string (AIRTABLE_API_KEY env));
           ("Content-Type", "application/json")]
          (VObj [("fields",
                  VObj (filter keep_entry (raw_fields (req_body req))))])).
Proof.
  intros Hb Hk Hid. unfold airtable_request.
  rewrite member_ok, rawPayload_ok by assumption. cbn [rbind].
  rewrite Hk, cleanedFields_filter by apply raw_fields_NoDup.
  generalize (filter keep_entry (raw_fields (req_body req))) as fields.
  intros fields.
  unfold js_and. rewrite (blank_falsy _ Hid), (blank_falsy _ Hid).
  reflexivity.
Qed.

Lemma calls_request (req : request) (rq : fetch_request) :
  req_method req = "POST" \/ req_method req = "PATCH" ->
  request_of req = Ok rq ->
  calls (snd (run req)) = [(rq, upstream rq)].
Proof.
  intros Hm Hrq.
  destruct (handle_submit_total req Hm) as (_ & _ & [Hc|(rq' & Hrq' & Hc)]).
  - rewrite handle_submit in Hc by assumption. rewrite Hrq in Hc.
    destruct (upstream rq) as [r|e].
    + destruct (respond_caught r (with_call after_headers rq (Resolved r)))
        as (_ & H2 & _).
      rewrite H2 in Hc. discriminate.
    + discriminate.
  - congruence.
Qed.

(** *** After the call *)

(** A run that recorded a call went through [fetch] with the request the
    [try] block built, and finished in the branch the outcome selects. *)
Lemma handle_call_inv (req : request) (rq : fetch_request)
  (o : fetch_outcome) :
  calls (snd (run req)) = [(rq, o)] ->
  request_of req = Ok rq
  /\ upstream rq = o
  /\ run req
     = match o with
       | Rejected e => catch_block e (with_call after_headers rq o)
       | Resolved r =>
           try_catch (respond r) catch_block (with_call after_headers rq o)
       end.
Proof.
  intros Hc.
  assert (req_method req = "POST" \/ req_method req = "PATCH") as Hm.
  { destruct (String.eqb_spec (req_method req) "POST") as [Hp|Hp];
      [now left|].
    destruct (String.eqb_spec (req_method req) "PATCH") as [Hq|Hq];
      [now right|].
    exfalso. revert Hc. unfold handle, submitToAirTable.
    apply String.eqb_neq in Hp, Hq. rewrite Hp, Hq.
    destruct (req_method req =? "OPTIONS")%string; cbn; discriminate. }
  destruct (handle_submit_total req Hm) as (_ & _ & [H0|(rq' & Hrq & H1)]);
    [congruence|].
  rewrite H1 in Hc. injection Hc as -> <-.
  repeat split; [assumption|].
  rewrite handle_submit, Hrq by assumption.
  destruct (upstream rq); reflexivity.
Qed.

Lemma respond_success (r : fetch_response) (d : value) (w : world) :
  response_ok r = true ->
  json r = Ok d ->
  is_nullish d = false ->
  try_catch (respond r) catch_block w
  = (Ok tt,
     mkWorld (mkRes (headers (res w)) 200 (Json (success_body (prop d "id"))))
       (console w) (calls w)).
Proof.
  intros Hok Hj Hd.
  unfold respond, try_catch, bind, lift, member.
  rewrite Hok, Hj. cbn. rewrite Hd. reflexivity.
Qed.

Lemma respond_failure (r : fetch_response) (d : value) (w : world) :
  response_ok r = false ->
  json r = Ok d ->
  is_nullish d = false ->
  try_catch (respond r) catch_block w
  = match new_Error
            (js_or (opt_member (prop d "error") "message")
               (VStr "Failed to submit to AirTable")) with
    | Ok e | Throw e =>
        catch_block e
          (mkWorld (res w)
             (console w ++ [("AirTable API Error:", LogValue d)]) (calls w))
    end.
Proof.
  intros Hok Hj Hd.
  unfold respond, try_catch, bind, lift, throw, member.
  rewrite Hok, Hj. cbn. rewrite Hd.
  destruct (new_Error _); reflexivity.
Qed.

(** The body of every outbound call is [{fields: p}] for the Outbound
    Record Payload [p] of the request body. *)
Lemma request_carries_payload (req : request) (rq : fetch_request) :
  request_of req = Ok rq ->
  exists fields,
    outbound_payload (req_body req) = Ok fields
    /\ fr_body rq = VObj [("fields", VObj fields)].
Proof.
  unfold airtable_request, outbound_payload.
  destruct (member (req_body req) "airtable_record_id") as [rid|e];
    [|discriminate].
  cbn [rbind]. destruct (env_unset (AIRTABLE_API_KEY env)); [discriminate|].
  destruct (rawPayload (req_body req)) as [raw|e]; [|discriminate].
  cbn [rbind]. intros H. exists (cleanedFields raw). split; [reflexivity|].
  destruct (truthy _).
  - destruct (to_string rid); [|discriminate]. cbn in H.
    injection H as <-. reflexivity.
  - cbn in H. injection H as <-. reflexivity.
Qed.

(** ** The handler, claim by claim *)

(** C9. A request with method [OPTIONS] is answered 200 with an empty body.
    The whole outcome is one fixed world, whatever the request body, the
    configuration and the upstream service are: the body is never read and
    no outbound call is made. *)
Theorem options_preflight (req : request) :
  req_method req = "OPTIONS" ->
  run req = (Ok tt, mkWorld (mkRes cors_headers 200 Ended) [] []).
Proof.
  intros H. unfold handle, submitToAirTable. rewrite H.
  reflexivity.
Qed.

(** C8. A request whose method is none of [OPTIONS], [POST], [PATCH] is
    answered 405 with the body
    [{success: false, error: "Method not allowed"}], and no outbound call is
    made. *)
Theorem method_not_allowed (req : request) :
  req_method req <> "OPTIONS" ->
  req_method req <> "POST" ->
  req_method req <> "PATCH" ->
  run req
  = (Ok tt,
     mkWorld (mkRes cors_headers 405
                (Json (failure_body "Method not allowed"))) [] []).
Proof.
  intros Ho Hp Hq. unfold handle, submitToAirTable.
  apply String.eqb_neq in Ho, Hp, Hq. rewrite Ho, Hp, Hq. reflexivity.
Qed.

(** C7. A [POST] or [PATCH] request processed while the API key is not
    configured (unset, or set to the empty string) is answered 500 with a
    body [{success: false, error: m}]; the handler returns normally and no
    outbound call is made. When the request has a body, [m] is the message
    of the configuration error. *)
Theorem missing_api_key (req : request) :
  req_method req = "POST" \/ req_method req = "PATCH" ->
  env_unset (AIRTABLE_API_KEY env) = true ->
  exists m,
    fst (run req) = Ok tt
    /\ res (snd (run req)) = mkRes cors_headers 500 (Json (failure_body m))
    /\ calls (snd (run req)) = []
    /\ (is_nullish (req_body req) = false ->
        m = "AirTable API key not configured").
Proof.
  intros Hm Hk. rewrite handle_submit by assumption.
  destruct (is_nullish (req_body req)) eqn:Hb.
  - rewrite request_of_nullish by assumption. rewrite catch_block_run.
    eexists. repeat split. discriminate.
  - rewrite request_of_unset by assumption. rewrite catch_block_run.
    eexists. repeat split.
Qed.

(** C3, as amended. For a [POST] or [PATCH] request that has a body,
    processed while the API key is configured: with a non-empty string
    [airtable_record_id] the handler makes exactly one outbound call, a
    [PATCH] to the collection URL followed by [/] and that identifier; with
    an absent, [null] or empty [airtable_record_id] it makes exactly one
    outbound call, a [POST] to the collection URL. *)
Theorem dispatch_by_record_id (req : request) :
  req_method req = "POST" \/ req_method req = "PATCH" ->
  env_unset (AIRTABLE_API_KEY env) = false ->
  is_nullish (req_body req) = false ->
  (forall id,
     prop (req_body req) "airtable_record_id" = VStr id -> id <> "" ->
     exists rq,
       calls (snd (run req)) = [(rq, upstream rq)]
       /\ fr_method rq = "PATCH"
       /\ fr_url rq = (collection_url base_id ++ "/" ++ id)%string)
  /\ (is_blank (prop (req_body req) "airtable_record_id") = true ->
      exists rq,
        calls (snd (run req)) = [(rq, upstream rq)]
        /\ fr_method rq = "POST"
        /\ fr_url rq = collection_url base_id).
Proof.
  intros Hm Hk Hb. split.
  - intros id Hid Hne. eexists. split.
    + apply calls_request; [assumption|].
      now apply (request_of_update req id).
    + split; [reflexivity|]. apply record_url_collection.
  - intros Hid. eexists. split.
    + apply calls_request; [assumption|]. now apply request_of_create.
    + split; reflexivity.
Qed.

(** C4, as amended. When the outbound call returned a non-2xx status with
    a JSON body other than [null]: if its [error.message] is a non-empty
    string the handler responds 500 with
    [{success: false, error: <that message>}]; if its [error.message] is
    absent (or otherwise falsy) the error is
    ["Failed to submit to AirTable"]. *)
Theorem upstream_error_response (req : request) (rq : fetch_request)
  (r : fetch_response) (d : value) :
  calls (snd (run req)) = [(rq, Resolved r)] ->
  response_ok r = false ->
  json r = Ok d ->
  is_nullish d = false ->
  (forall m,
     opt_member (prop d "error") "message" = VStr m -> m <> "" ->
     fst (run req) = Ok tt
     /\ res (snd (run req)) = mkRes cors_headers 500 (Json (failure_body m)))
  /\ (truthy (opt_member (prop d "error") "message") = false ->
      fst (run req) = Ok tt
      /\ res (snd (run req))
         = mkRes cors_headers 500
             (Json (failure_body "Failed to submit to AirTable"))).
Proof.
  intros Hc Hok Hj Hd.
  destruct (handle_call_inv req rq _ Hc) as (_ & _ & ->).
  rewrite (respond_failure r d) by assumption.
  unfold js_or. split.
  - intros m Hmsg Hne. rewrite Hmsg. apply String.eqb_neq in Hne.
    cbn. rewrite Hne. cbn. rewrite Hne. split; reflexivity.
  - intros ->. split; reflexivity.
Qed.

(** C5. When the outbound call returned a 2xx status with a JSON object
    containing an [id], the handler responds 200 with
    [{success: true, recordId: <that id>,
      message: "Form submitted successfully"}]. *)
Theorem upstream_success_response (req : request) (rq : fetch_request)
  (r : fetch_response) (props : object) (id : value) :
  calls (snd (run req)) = [(rq, Resolved r)] ->
  response_ok r = true ->
  json r = Ok (VObj props) ->
  lookup "id" props = Some id ->
  fst (run req) = Ok tt
  /\ res (snd (run req)) = mkRes cors_headers 200 (Json (success_body id)).
Proof.
  intros Hc Hok Hj Hid.
  destruct (handle_call_inv req rq _ Hc) as (_ & _ & ->).
  rewrite (respond_success r (VObj props)) by (assumption || reflexivity).
  cbn. rewrite Hid. split; reflexivity.
Qed.

End HandlerFacts.

End RelayFacts.

(** * Concrete runs *)

(** C1, refuted as stated: the inbound [status] is the empty string, yet the
    payload has the key [status], with the value ["completed"], which is not
    a boolean. *)
Lemma blank_status_is_defaulted :
  exists fields,
    outbound_payload Node.blank_status_body = Ok fields
    /\ inbound_value Node.blank_status_body "status" = VStr ""
    /\ lookup "status" fields = Some (VStr "completed")
    /\ is_boolean (VStr "completed" : @value Node.num) = false.
Proof. eexists. repeat split. Qed.

Lemma payload_blank_keys_witness :
  exists fields,
    outbound_payload Node.import_body = Ok fields
    /\ forall k v,
         lookup k fields = Some v ->
         is_blank v = false
         /\ (is_blank (inbound_value Node.import_body k) = true ->
             is_boolean v = true
             \/ k = "status" \/ k = "email_sequence_stage").
Proof.
  apply (payload_blank_keys Node.import_body).
  reflexivity.
Defined.

Lemma payload_direction_fields_witness :
  (exists fields,
     outbound_payload Node.import_body = Ok fields
     /\ lookup "goods_location" fields = Some (VStr "port")
     /\ lookup "customs_code_number" fields = Some (VStr "C-17")
     /\ lookup "destination_country" fields = None)
  /\ (exists fields,
        outbound_payload Node.export_body = Ok fields
        /\ lookup "destination_country" fields = Some (VStr "NZ")
        /\ lookup "goods_location" fields = None).
Proof.
  split.
  - destruct (payload_direction_fields Node.import_body) as [Himport _].
    destruct (Himport eq_refl) as (fields & Hp & Hin & Hout).
    exists fields. split; [exact Hp|]. split; [|split].
    + apply (Hin "goods_location"); [cbn; tauto|reflexivity].
    + apply (Hin "customs_code_number"); [cbn; tauto|reflexivity].
    + apply (Hout "destination_country"). cbn; tauto.
  - destruct (payload_direction_fields Node.export_body) as [_ Hexport].
    destruct (Hexport eq_refl) as (fields & Hp & Hin & Hout).
    exists fields. split; [exact Hp|]. split.
    + apply (Hin "destination_country"); [cbn; tauto|reflexivity].
    + apply (Hout "goods_location"). cbn; tauto.
Defined.

Lemma payload_defaults_witness :
  exists fields,
    outbound_payload Node.export_body = Ok fields
    /\ lookup "personal_item_mixed" fields = Some (VBool false)
    /\ lookup "requires_temperature_control" fields = Some (VBool false)
    /\ lookup "status" fields = Some (VStr "completed")
    /\ lookup "reminder_sent" fields = Some (VBool false)
    /\ lookup "follow_up_sent" fields = Some (VBool false)
    /\ lookup "sales_manager_notified" fields = Some (VBool false)
    /\ lookup "email_sequence_stage" fields = Some (VStr "none").
Proof.
  destruct (payload_defaults Node.export_body eq_refl)
    as (fields & Hp & Hmixed & Htemp & Hstatus & Htracking).
  exists fields. split; [exact Hp|].
  split; [exact (Hmixed eq_refl)|].
  split; [exact (Htemp eq_refl)|].
  split; [exact (Hstatus eq_refl)|exact Htracking].
Defined.

Lemma payload_document_status_witness :
  exists fields,
    outbound_payload Node.export_body = Ok fields
    /\ lookup "air_waybill_status" fields = None
    /\ lookup "msds_status" fields = None.
Proof.
  destruct (payload_document_status Node.export_body eq_refl) as (fields & Hp & Hdoc).
  exists fields. split; [exact Hp|]. split.
  - apply (Hdoc "air_waybill_status" "air_waybill"); [cbn; tauto|reflexivity].
  - apply (Hdoc "msds_status" "msds"); [cbn; tauto|reflexivity].
Defined.

Lemma options_preflight_witness :
  handle Node.unconfigured (Node.always Node.null_error)
    (mkRequest "OPTIONS" VUndefined)
  = (Ok tt, mkWorld (mkRes cors_headers 200 Ended) [] []).
Proof. apply options_preflight. reflexivity. Defined.

Lemma method_not_allowed_witness :
  handle Node.configured (Node.always Node.created)
    (mkRequest "GET" Node.update_body)
  = (Ok tt,
     mkWorld (mkRes cors_headers 405
                (Json (failure_body "Method not allowed"))) [] []).
Proof. apply method_not_allowed; discriminate. Defined.

Lemma missing_api_key_witness :
  let out := handle Node.unconfigured (Node.always Node.created)
               (mkRequest "POST" Node.update_body) in
  exists m,
    fst out = Ok tt
    /\ res (snd out) = mkRes cors_headers 500 (Json (failure_body m))
    /\ calls (snd out) = []
    /\ (is_nullish Node.update_body = false ->
        m = "AirTable API key not configured").
Proof.
  apply (missing_api_key Node.unconfigured (Node.always Node.created)
           (mkRequest "POST" Node.update_body)).
  - now left.
  - reflexivity.
Defined.

(** C3, refuted as stated: a [PATCH] request carrying a non-empty
    [airtable_record_id] while the API key is not configured makes no
    outbound call at all. *)
Lemma unconfigured_update_makes_no_call :
  let req := mkRequest "PATCH" Node.update_body in
  prop (req_body req) "airtable_record_id" = VStr "rec1"
  /\ calls (snd (handle Node.unconfigured (Node.always Node.created) req))
     = [].
Proof. split; reflexivity. Qed.

Lemma dispatch_by_record_id_witness :
  (exists rq,
     calls (snd (handle Node.configured (Node.always Node.created)
                   (mkRequest "POST" Node.update_body)))
     = [(rq, Node.always Node.created rq)]
     /\ fr_method rq = "PATCH"
     /\ fr_url rq
        = "https://api.airtable.com/v0/appTll6JoqW04YvJs/Form%20Submissions/rec1")
  /\ (exists rq,
        calls (snd (handle Node.configured (Node.always Node.created)
                      (mkRequest "PATCH" Node.create_body)))
        = [(rq, Node.always Node.created rq)]
        /\ fr_method rq = "POST"
        /\ fr_url rq
           = "https://api.airtable.com/v0/appTll6JoqW04YvJs/Form%20Submissions").
Proof.
  split.
  - destruct (dispatch_by_record_id Node.configured (Node.always Node.created)
                (mkRequest "POST" Node.update_body))
      as [Hupdate _]; [now left|reflexivity|reflexivity|].
    apply (Hupdate "rec1"); [reflexivity|discriminate].
  - destruct (dispatch_by_record_id Node.configured (Node.always Node.created)
                (mkRequest "PATCH" Node.create_body))
      as [_ Hcreate]; [now right|reflexivity|reflexivity|].
    apply Hcreate. reflexivity.
Defined.

(** C4, refuted as stated, once for each half. The upstream answers 422
    with a body whose [error.message] is the empty string: the 500 body
    carries the fallback string, not that message. The upstream answers 502
    with the JSON body [null], which carries no [error.message]: reading
    [errorData.error] throws, and the 500 body carries the message of that
    [TypeError], not the fallback string. *)
Lemma error_message_not_relayed :
  (let out := handle Node.configured (Node.always Node.empty_message)
                (mkRequest "POST" Node.create_body) in
   (exists rq, calls (snd out) = [(rq, Resolved Node.empty_message)])
   /\ response_ok Node.empty_message = false
   /\ (exists d, json Node.empty_message = Ok d
                 /\ prop (prop d "error") "message" = VStr "")
   /\ res (snd out)
      = mkRes cors_headers 500
          (Json (failure_body "Failed to submit to AirTable")))
  /\ (let out := handle Node.configured (Node.always Node.null_error)
                   (mkRequest "POST" Node.create_body) in
      (exists rq, calls (snd out) = [(rq, Resolved Node.null_error)])
      /\ response_ok Node.null_error = false
      /\ json Node.null_error = Ok VNull
      /\ res (snd out)
         = mkRes cors_headers 500
             (Json (failure_body
                      "Cannot read properties of null (reading 'error')"))).
Proof.
  split; (split; [eexists; reflexivity|]).
  - split; [reflexivity|]. split; [eexists; split; reflexivity|reflexivity].
  - repeat split.
Qed.

Lemma upstream_error_response_witness :
  res (snd (handle Node.configured (Node.always Node.invalid_field)
              (mkRequest "POST" Node.create_body)))
  = mkRes cors_headers 500 (Json (failure_body "Invalid field"))
  /\ res (snd (handle Node.configured (Node.always Node.not_found)
                 (mkRequest "PATCH" Node.update_body)))
     = mkRes cors_headers 500
         (Json (failure_body "Failed to submit to AirTable")).
Proof.
  split.
  - edestruct (upstream_error_response Node.configured
                 (Node.always Node.invalid_field)
                 (mkRequest "POST" Node.create_body))
      as [Hmessage _];
      [reflexivity|reflexivity|reflexivity|reflexivity|].
    apply (Hmessage "Invalid field"); [reflexivity|discriminate].
  - edestruct (upstream_error_response Node.configured
                 (Node.always Node.not_found)
                 (mkRequest "PATCH" Node.update_body))
      as [_ Hfallback];
      [reflexivity|reflexivity|reflexivity|reflexivity|].
    apply Hfallback. reflexivity.
Defined.

Lemma upstream_success_response_witness :
  let out := handle Node.configured (Node.always Node.created)
               (mkRequest "POST" Node.create_body) in
  fst out = Ok tt
  /\ res (snd out)
     = mkRes cors_headers 200 (Json (success_body (VStr "rec123"))).
Proof.
  eapply (upstream_success_response Node.configured
            (Node.always Node.created) (mkRequest "POST" Node.create_body));
    reflexivity.
Defined.

(** * Further properties of the mapper and the filter *)

Section PayloadFacts.

Context {number : Type} {runtime : Runtime number}.

Local Abbreviation value := (@value number).
Local Abbreviation object := (@object number).

Lemma keep_not_blank_iff (v : value) : keep v = negb (is_blank v).
Proof. destruct v as [| | | |[|]| |]; reflexivity. Qed.

Lemma filter_keys_NoDup (o : object) :
  NoDup (map fst o) -> NoDup (map fst (filter keep_entry o)).
Proof.
  induction o as [|[k v] o IH]; cbn; intros Hnd; [constructor|].
  inversion Hnd as [|? ? Hk Hnd']; subst.
  unfold keep_entry at 1. cbn. destruct (keep v); cbn; [|now apply IH].
  constructor; [|now apply IH].
  intros Hin. apply Hk. now apply in_keys_filter.
Qed.

Lemma existsb_eqb_In (k : string) (l : list string) :
  existsb (String.eqb k) l = true -> In k l.
Proof.
  intros H. apply existsb_exists in H as (k' & Hin & Heq).
  apply String.eqb_eq in Heq. now subst.
Qed.

Lemma strict_eq_str_true (v : value) (lit : string) :
  strict_eq_str v lit = true -> v = VStr lit.
Proof.
  destruct v; cbn; try discriminate. intros H.
  apply String.eqb_eq in H. now subst.
Qed.

Lemma truthy_not_blank (v : value) : truthy v = true -> is_blank v = false.
Proof.
  intros H. destruct (is_blank v) eqn:Hb; [|reflexivity].
  apply blank_falsy in Hb. congruence.
Qed.

Ltac eval_raw body :=
  unfold raw_fields;
  destruct (strict_eq_str (prop body "direction") "import");
  destruct (strict_eq_str (prop body "direction") "export");
  reflexivity.

Lemma raw_fields_keys (body : value) (k : string) :
  In k (map fst (raw_fields body)) -> In k payload_keys.
Proof.
  intros Hin. apply existsb_eqb_In.
  assert (forallb (fun x => existsb (String.eqb x) payload_keys)
            (map fst (raw_fields body)) = true) as Hall.
  { unfold raw_fields.
    destruct (strict_eq_str (prop body "direction") "import");
    destruct (strict_eq_str (prop body "direction") "export");
    vm_compute; reflexivity. }
  rewrite forallb_forall in Hall. now apply Hall.
Qed.

Lemma raw_lookup_verbatim (body : value) (k : string) :
  In k verbatim_keys -> lookup k (raw_fields body) = Some (prop body k).
Proof.
  intros Hin. cbn in Hin.
  repeat (destruct Hin as [<-|Hin]; [eval_raw body|]).
  contradiction.
Qed.


(** X2. Filtering twice changes nothing. *)
Theorem cleanedFields_idempotent (raw : object) :
  NoDup (map fst raw) ->
  cleanedFields (cleanedFields raw) = cleanedFields raw.
Proof.
  intros Hnd. rewrite (cleanedFields_filter raw) by assumption.
  rewrite cleanedFields_filter by now apply filter_keys_NoDup.
  induction raw as [|kv raw IH]; cbn; [reflexivity|].
  inversion Hnd; subst.
  destruct (keep_entry kv) eqn:Hk; cbn; rewrite ?Hk, IH; auto.
Qed.

(** X3. The payload only has keys the object literal names, each once: no
    other inbound field is forwarded, and neither [airtable_record_id] nor
    [document_status] is ever a payload key. *)
Theorem payload_keys_closed (body : value) :
  is_nullish body = false ->
  exists fields,
    outbound_payload body = Ok fields
    /\ NoDup (map fst fields)
    /\ (forall k, In k (map fst fields) -> In k payload_keys)
    /\ lookup "airtable_record_id" fields = None
    /\ lookup "document_status" fields = None.
Proof.
  intros Hbody. exists (filter keep_entry (raw_fields body)).
  split; [now apply outbound_payload_ok|].
  assert (forall k, In k (map fst (filter keep_entry (raw_fields body))) ->
                    In k payload_keys) as Hkeys.
  { intros k Hin. now apply (raw_fields_keys body), in_keys_filter. }
  split; [apply filter_keys_NoDup, raw_fields_NoDup|].
  split; [exact Hkeys|].
  split; apply lookup_not_in; intros Hin; apply Hkeys in Hin;
    cbn in Hin; intuition discriminate.
Qed.

(** X4. Each of the twenty-one plainly copied fields is in the payload with its
    inbound value, unless that value is the empty string, [undefined] or
    [null], in which case the key is absent. *)
Theorem payload_verbatim_fields (body : value) :
  is_nullish body = false ->
  exists fields,
    outbound_payload body = Ok fields
    /\ forall k, In k verbatim_keys ->
         lookup k fields
         = if is_blank (prop body k) then None else Some (prop body k).
Proof.
  intros Hbody. exists (filter keep_entry (raw_fields body)).
  split; [now apply outbound_payload_ok|].
  intros k Hin.
  rewrite lookup_payload, (raw_lookup_verbatim body k Hin),
    keep_not_blank_iff.
  now destruct (is_blank (prop body k)).
Qed.

Lemma raw_lookup_import (body : value) (k : string) :
  In k import_keys ->
  lookup k (raw_fields body)
  = if strict_eq_str (prop body "direction") "import"
    then Some (prop body k) else None.
Proof.
  intros Hin. cbn in Hin.
  repeat (destruct Hin as [<-|Hin]; [eval_raw body|]).
  contradiction.
Qed.

Lemma raw_lookup_export (body : value) (k : string) :
  In k export_keys ->
  lookup k (raw_fields body)
  = if strict_eq_str (prop body "direction") "export"
    then Some (prop body k) else None.
Proof.
  intros Hin. cbn in Hin.
  repeat (destruct Hin as [<-|Hin]; [eval_raw body|]).
  contradiction.
Qed.

(** X5. A conditional key is in the payload only under its own direction, and
    then with its inbound value: an import key requires [direction] to be
    exactly ["import"], an export key exactly ["export"]. Under any other
    direction (or none) all seven are absent. *)
Theorem payload_conditional_fields (body : value) :
  is_nullish body = false ->
  exists fields,
    outbound_payload body = Ok fields
    /\ (forall k v, In k import_keys -> lookup k fields = Some v ->
          prop body "direction" = VStr "import" /\ v = prop body k)
    /\ (forall k v, In k export_keys -> lookup k fields = Some v ->
          prop body "direction" = VStr "export" /\ v = prop body k).
Proof.
  intros Hbody. exists (filter keep_entry (raw_fields body)).
  split; [now apply outbound_payload_ok|].
  split; intros k v Hin; rewrite lookup_payload;
    [rewrite (raw_lookup_import body k Hin)
    |rewrite (raw_lookup_export body k Hin)];
    (destruct (strict_eq_str _ _) eqn:Hd; [|discriminate]);
    apply strict_eq_str_true in Hd;
    (destruct (keep (prop body k)); [|discriminate]);
    intros [= <-]; now split.
Qed.

(** X6. Each of the seven document keys is in the payload with the value of its
    sub-key of [document_status], unless that value is the empty string,
    [undefined] or [null] (or [document_status] itself is missing), in which
    case the key is absent. *)
Theorem payload_document_fields (body : value) :
  is_nullish body = false ->
  exists fields,
    outbound_payload body = Ok fields
    /\ forall key sub, In (key, sub) document_keys ->
         let source := opt_member (prop body "document_status") sub in
         lookup key fields
         = if is_blank source then None else Some source.
Proof.
  intros Hbody. exists (filter keep_entry (raw_fields body)).
  split; [now apply outbound_payload_ok|].
  intros key sub Hin source.
  rewrite lookup_payload, (raw_lookup_document body key sub Hin),
    keep_not_blank_iff.
  fold source. now destruct (is_blank source).
Qed.

(** X7. [status] and the two flags are always in the payload: with the inbound
    value when it is truthy, with the default (["completed"], [false]) when
    it is falsy, be it absent, [null], empty, [false] or zero. *)
Theorem payload_defaulted_fields (body : value) :
  is_nullish body = false ->
  exists fields,
    outbound_payload body = Ok fields
    /\ lookup "status" fields
       = Some (if truthy (prop body "status") then prop body "status"
               else VStr "completed")
    /\ forall k, In k flag_keys ->
         lookup k fields
         = Some (if truthy (prop body k) then prop body k else VBool false).
Proof.
  intros Hbody. exists (filter keep_entry (raw_fields body)).
  split; [now apply outbound_payload_ok|].
  split; [|intros k Hin];
    rewrite lookup_payload;
    [rewrite raw_lookup_status|rewrite (raw_lookup_flag body k Hin)];
    unfold js_or; rewrite keep_not_blank_iff;
    (destruct (truthy (prop body _)) eqn:Ht;
     [now rewrite (truthy_not_blank _ Ht)|reflexivity]).
Qed.

End PayloadFacts.

(** * Further properties of the handler *)

Section HandlerPaths.

Context {number : Type} {runtime : Runtime number}.

Local Abbreviation value := (@value number).
Local Abbreviation request := (@request number).
Local Abbreviation world := (@world number).
Local Abbreviation fetch_request := (@fetch_request number).
Local Abbreviation fetch_response := (@fetch_response number).
Local Abbreviation fetch_outcome := (@fetch_outcome number).

Variable env : environment.
Variable upstream : fetch_request -> fetch_outcome.

Local Abbreviation run := (handle env upstream).
Local Abbreviation request_of := (airtable_request env).
Local Abbreviation base_id :=
  (env_or (AIRTABLE_BASE_ID env) "appTll6JoqW04YvJs").

Lemma error_text_nonempty (e : js_error) : error_text e <> "".
Proof.
  unfold error_text. destruct (String.eqb_spec (err_message e) "");
    [discriminate|assumption].
Qed.

Lemma respond_unreadable (r : fetch_response) (e : js_error) (w : world) :
  json r = Throw e ->
  try_catch (respond r) catch_block w
  = (Ok tt, caught e (headers (res w)) (console w) (calls w)).
Proof.
  intros Hj. unfold respond, try_catch, bind, lift.
  destruct (negb (response_ok r)); rewrite Hj; reflexivity.
Qed.

Lemma respond_nullish (r : fetch_response) (d : value) (w : world) :
  json r = Ok d ->
  is_nullish d = true ->
  try_catch (respond r) catch_block w
  = if response_ok r
    then (Ok tt,
          caught (type_error (msg_cannot_read d "id"))
            (headers (res w)) (console w) (calls w))
    else (Ok tt,
          caught (type_error (msg_cannot_read d "error"))
            (headers (res w))
            (console w ++ [("AirTable API Error:", LogValue d)])%list
            (calls w)).
Proof.
  intros Hj Hd. unfold respond, try_catch, bind, lift, member.
  destruct (response_ok r); cbn; rewrite Hj; cbn; rewrite Hd; reflexivity.
Qed.

Lemma respond_error_body (r : fetch_response) (d : value) (w : world) :
  response_ok r = false ->
  json r = Ok d ->
  is_nullish d = false ->
  exists e,
    (new_Error (js_or (opt_member (prop d "error") "message")
                  (VStr "Failed to submit to AirTable")) = Ok e
     \/ new_Error (js_or (opt_member (prop d "error") "message")
                     (VStr "Failed to submit to AirTable")) = Throw e)
    /\ try_catch (respond r) catch_block w
       = (Ok tt,
          caught e (headers (res w))
            (console w ++ [("AirTable API Error:", LogValue d)])%list
            (calls w)).
Proof.
  intros Hok Hj Hd. rewrite (respond_failure r d) by assumption.
  destruct (new_Error _) as [e|e]; exists e; split; auto.
Qed.

(** Every way the code after the call can end. *)
Lemma respond_cases (r : fetch_response) (w : world) :
  (exists d,
     response_ok r = true /\ json r = Ok d /\ is_nullish d = false
     /\ try_catch (respond r) catch_block w
        = (Ok tt,
           mkWorld (mkRes (headers (res w)) 200
                      (Json (success_body (prop d "id"))))
             (console w) (calls w)))
  \/ (exists e pre,
        (pre = []
         \/ (response_ok r = false
             /\ exists d, json r = Ok d
                          /\ pre = [("AirTable API Error:", LogValue d)]))
        /\ try_catch (respond r) catch_block w
           = (Ok tt,
              caught e (headers (res w)) (console w ++ pre)%list (calls w))).
Proof.
  destruct (json r) as [d|e] eqn:Hj.
  2: { right. exists e, []. split; [now left|].
       rewrite app_nil_r. now apply respond_unreadable. }
  destruct (is_nullish d) eqn:Hd.
  - right. rewrite (respond_nullish r d) by assumption.
    destruct (response_ok r) eqn:Hok.
    + eexists. exists []. split; [now left|]. now rewrite app_nil_r.
    + eexists. eexists.
      split; [right; split; [reflexivity|]; eauto|reflexivity].
  - destruct (response_ok r) eqn:Hok.
    + left. exists d. split; [reflexivity|]. split; [reflexivity|].
      split; [assumption|]. now apply respond_success.
    + right. destruct (respond_error_body r d w Hok Hj Hd) as (e & _ & ->).
      eexists. eexists.
      split; [right; split; [reflexivity|]; eauto|reflexivity].
Qed.

(** Every way a run of the handler can end. *)
Lemma run_outcomes (req : request) :
  (req_method req = "OPTIONS"
   /\ run req = (Ok tt, mkWorld (mkRes cors_headers 200 Ended) [] []))
  \/ (req_method req <> "OPTIONS"
      /\ run req
         = (Ok tt,
            mkWorld (mkRes cors_headers 405
                       (Json (failure_body "Method not allowed"))) [] []))
  \/ (req_method req <> "OPTIONS"
      /\ exists e, run req = (Ok tt, caught e cors_headers [] []))
  \/ (req_method req <> "OPTIONS"
      /\ exists rq e pre,
           (pre = [] \/ exists d, pre = [("AirTable API Error:", LogValue d)])
           /\ run req
              = (Ok tt, caught e cors_headers pre [(rq, upstream rq)]))
  \/ (req_method req <> "OPTIONS"
      /\ exists rq r d,
           upstream rq = Resolved r /\ response_ok r = true
           /\ json r = Ok d /\ is_nullish d = false
           /\ run req
              = (Ok tt,
                 mkWorld (mkRes cors_headers 200
                            (Json (success_body (prop d "id"))))
                   [] [(rq, Resolved r)])).
Proof.
  destruct (String.eqb_spec (req_method req) "OPTIONS") as [Ho|Ho].
  { left. split; [assumption|].
    unfold handle, submitToAirTable. rewrite Ho. reflexivity. }
  right.
  destruct (String.eqb_spec (req_method req) "POST") as [Hp|Hp].
  2: destruct (String.eqb_spec (req_method req) "PATCH") as [Hq|Hq].
  3: { left. split; [assumption|].
       unfold handle, submitToAirTable.
       apply String.eqb_neq in Ho, Hp, Hq. rewrite Ho, Hp, Hq.
       reflexivity. }
  all: right; rewrite handle_submit by auto;
    destruct (request_of req) as [rq|e];
    [|left; split; [assumption|]; exists e; reflexivity];
    right;
    (destruct (upstream rq) as [r|e] eqn:Hup;
     [|left; split; [assumption|]; exists rq, e, []; rewrite Hup;
       split; [now left|reflexivity]]);
    destruct (respond_cases r (with_call after_headers rq (Resolved r)))
      as [(d & Hok & Hj & Hd & ->)|(e & pre & Hpre & ->)];
    [right; split; [assumption|]; exists rq, r, d; repeat split; assumption
    |left; split; [assumption|]; exists rq, e, pre; rewrite Hup; split;
     [destruct Hpre as [->|(_ & d & _ & ->)]; eauto|reflexivity]].
Qed.

(** X8. Whatever the request, the configuration and the upstream do, the
    handler returns normally with the three CORS headers set and one of
    four responses sent: the empty 200 of the preflight, the 405, a 200
    success body, or a 500 failure body whose error text is not empty. It
    makes at most one outbound call: nothing is retried. *)
Theorem handler_always_responds (req : request) :
  fst (run req) = Ok tt
  /\ headers (res (snd (run req))) = cors_headers
  /\ (length (calls (snd (run req))) <= 1)%nat
  /\ ((statusCode (res (snd (run req))) = 200
       /\ sent (res (snd (run req))) = Ended
       /\ req_method req = "OPTIONS")
      \/ (statusCode (res (snd (run req))) = 405
          /\ sent (res (snd (run req)))
             = Json (failure_body "Method not allowed"))
      \/ (statusCode (res (snd (run req))) = 200
          /\ exists id, sent (res (snd (run req))) = Json (success_body id))
      \/ (statusCode (res (snd (run req))) = 500
          /\ exists m, m <> ""
                       /\ sent (res (snd (run req)))
                          = Json (failure_body m))).
Proof.
  destruct (run_outcomes req)
    as [(Ho & ->)|[(_ & ->)|[(_ & e & ->)|[(_ & rq & e & pre & _ & ->)
       |(_ & rq & r & d & _ & _ & _ & _ & ->)]]]]; cbn;
    (repeat split; [lia|]).
  - now left.
  - right. left. now split.
  - do 3 right. split; [reflexivity|]. eexists. split; [|reflexivity].
    apply error_text_nonempty.
  - do 3 right. split; [reflexivity|]. eexists. split; [|reflexivity].
    apply error_text_nonempty.
  - do 2 right. left. split; [reflexivity|]. eauto.
Qed.

(** X9. A 200 other than the preflight's is sent only after the one outbound
    call resolved with a 2xx status and a JSON body that is not [null]; the
    body sent carries that body's [id], and nothing was logged. *)
Theorem success_requires_upstream_success (req : request) :
  statusCode (res (snd (run req))) = 200 ->
  req_method req <> "OPTIONS" ->
  exists rq r d,
    calls (snd (run req)) = [(rq, Resolved r)]
    /\ upstream rq = Resolved r
    /\ response_ok r = true
    /\ json r = Ok d
    /\ is_nullish d = false
    /\ sent (res (snd (run req))) = Json (success_body (prop d "id"))
    /\ console (snd (run req)) = [].
Proof.
  destruct (run_outcomes req)
    as [(Ho & _)|[(_ & ->)|[(_ & e & ->)|[(_ & rq & e & pre & _ & ->)
       |(_ & rq & r & d & Hup & Hok & Hj & Hd & ->)]]]]; cbn;
    intros Hs Hm; try discriminate; [contradiction|].
  exists rq, r, d. repeat split; assumption.
Qed.

(** X10. Every 500 is logged: the console ends with the ["Submission error:"]
    entry of the very error whose text the body carries, preceded at most
    by the ["AirTable API Error:"] entry of the upstream error body. Any
    other response, the 405 included, logs nothing. *)
Theorem errors_are_logged (req : request) :
  (statusCode (res (snd (run req))) <> 500 -> console (snd (run req)) = [])
  /\ (statusCode (res (snd (run req))) = 500 ->
      exists e pre,
        console (snd (run req))
        = (pre ++ [("Submission error:", LogError e)])%list
        /\ sent (res (snd (run req))) = Json (failure_body (error_text e))
        /\ (pre = []
            \/ exists d, pre = [("AirTable API Error:", LogValue d)])).
Proof.
  destruct (run_outcomes req)
    as [(Ho & ->)|[(_ & ->)|[(_ & e & ->)|[(_ & rq & e & pre & Hpre & ->)
       |(_ & rq & r & d & _ & _ & _ & _ & ->)]]]]; cbn;
    (split; [intros H; try reflexivity; now destruct H
            |intros H; try discriminate]).
  - exists e, []. repeat split. now left.
  - exists e, pre. repeat split. assumption.
Qed.

(** X11. A [POST] or [PATCH] request without a body ([undefined] or [null]) is
    answered 500 with the text of the [TypeError] of the first read,
    whether or not the API key is configured; no outbound call is made. *)
Theorem missing_body (req : request) :
  req_method req = "POST" \/ req_method req = "PATCH" ->
  is_nullish (req_body req) = true ->
  run req
  = (Ok tt,
     caught (type_error (msg_cannot_read (req_body req) "airtable_record_id"))
       cors_headers [] []).
Proof.
  intros Hm Hb. rewrite handle_submit by assumption.
  now rewrite request_of_nullish by assumption.
Qed.

(** X12. When the outbound call is rejected (the upstream cannot be reached),
    the handler answers 500 with the text of the rejection, logs it, and
    makes no second call. *)
Theorem network_failure (req : request) (rq : fetch_request)
  (e : js_error) :
  In (rq, Rejected e) (calls (snd (run req))) ->
  run req = (Ok tt, caught e cors_headers [] [(rq, Rejected e)]).
Proof.
  intros Hin.
  assert (calls (snd (run req)) = [(rq, Rejected e)]) as Hc.
  { destruct (handle_total env upstream req)
      as (_ & _ & [H0|(rq' & _ & H1)]); rewrite ?H0, ?H1 in *;
      [contradiction|].
    destruct Hin as [Heq|[]]. now rewrite Heq. }
  now destruct (handle_call_inv env upstream req rq _ Hc) as (_ & _ & ->).
Qed.

(** X13. When the upstream answered with a body that is not JSON, the handler
    answers 500 with the text of the parse error, also when the upstream
    status was 2xx. *)
Theorem unreadable_upstream_body (req : request) (rq : fetch_request)
  (r : fetch_response) (e : js_error) :
  calls (snd (run req)) = [(rq, Resolved r)] ->
  json r = Throw e ->
  run req = (Ok tt, caught e cors_headers [] [(rq, Resolved r)]).
Proof.
  intros Hc Hj.
  destruct (handle_call_inv env upstream req rq _ Hc) as (_ & _ & ->).
  now rewrite (respond_unreadable r e) by assumption.
Qed.

(** X14. After a 2xx answer with a JSON body: any body but [null] gives the 200
    success response with [recordId] set to the body's [id] ([undefined]
    when it has none); the body [null] gives a 500 with the text of the
    [TypeError] of reading [id]. *)
Theorem upstream_success_any_body (req : request) (rq : fetch_request)
  (r : fetch_response) (d : value) :
  calls (snd (run req)) = [(rq, Resolved r)] ->
  response_ok r = true ->
  json r = Ok d ->
  run req
  = if is_nullish d
    then (Ok tt,
          caught (type_error (msg_cannot_read d "id")) cors_headers []
            [(rq, Resolved r)])
    else (Ok tt,
          mkWorld (mkRes cors_headers 200
                     (Json (success_body (prop d "id"))))
            [] [(rq, Resolved r)]).
Proof.
  intros Hc Hok Hj.
  destruct (handle_call_inv env upstream req rq _ Hc) as (_ & _ & ->).
  destruct (is_nullish d) eqn:Hd.
  - rewrite (respond_nullish r d) by assumption. now rewrite Hok.
  - now rewrite (respond_success r d) by assumption.
Qed.

(** X15. After a non-2xx answer with a JSON body the handler always answers
    500, whatever the upstream status was, and logs the body first. The
    error sent is the one thrown: for the body [null] the [TypeError] of
    reading [error]; otherwise [new Error(errorData.error?.message ||
    'Failed to submit to AirTable')], or the [TypeError] of a message that
    has no string conversion. *)
Theorem upstream_error_any_body (req : request) (rq : fetch_request)
  (r : fetch_response) (d : value) :
  calls (snd (run req)) = [(rq, Resolved r)] ->
  response_ok r = false ->
  json r = Ok d ->
  run req
  = (Ok tt,
     caught
       (if is_nullish d then type_error (msg_cannot_read d "error")
        else match new_Error
                     (js_or (opt_member (prop d "error") "message")
                        (VStr "Failed to submit to AirTable")) with
             | Ok e | Throw e => e
             end)
       cors_headers [("AirTable API Error:", LogValue d)]
       [(rq, Resolved r)]).
Proof.
  intros Hc Hok Hj.
  destruct (handle_call_inv env upstream req rq _ Hc) as (_ & _ & ->).
  destruct (is_nullish d) eqn:Hd.
  - rewrite (respond_nullish r d) by assumption. now rewrite Hok.
  - rewrite (respond_failure r d) by assumption.
    destruct (new_Error _); reflexivity.
Qed.

(** X16. The inbound method only opens the gate: a [POST] and a [PATCH] with the
    same body run identically, so whether the upstream is asked to create
    or to update depends on the body alone. *)
Theorem inbound_method_irrelevant (body : value) :
  run (mkRequest "POST" body) = run (mkRequest "PATCH" body).
Proof.
  rewrite !handle_submit by (cbn; auto). reflexivity.
Qed.

Lemma member_inv (v x : value) (k : string) :
  member v k = Ok x -> is_nullish v = false /\ x = prop v k.
Proof.
  unfold member. destruct (is_nullish v); [discriminate|].
  intros [= <-]. now split.
Qed.

Lemma truthy_not_empty (v : value) :
  truthy v = true -> is_empty_string v = false.
Proof. destruct v as [| | | |[|]| |]; cbn; congruence. Qed.

(** What the [try] block hands to [fetch], whenever it gets that far. *)
Lemma request_of_shape (req : request) (rq : fetch_request) :
  request_of req = Ok rq ->
  exists key fields,
    AIRTABLE_API_KEY env = Some key /\ key <> ""
    /\ outbound_payload (req_body req) = Ok fields
    /\ rq = mkFetch (fr_url rq) (fr_method rq)
              [("Authorization", "Bearer " ++ key);
               ("Content-Type", "application/json")]
              (VObj [("fields", VObj fields)])
    /\ let rid := prop (req_body req) "airtable_record_id" in
       (truthy rid = false /\ fr_method rq = "POST"
        /\ fr_url rq = collection_url base_id)
       \/ (truthy rid = true /\ fr_method rq = "PATCH"
           /\ exists id, to_string rid = Ok id
                         /\ fr_url rq
                            = (collection_url base_id ++ "/" ++ id)%string).
Proof.
  unfold airtable_request, outbound_payload.
  destruct (member (req_body req) "airtable_record_id") as [rid|e] eqn:Hm;
    [|discriminate].
  apply member_inv in Hm as [Hb ->]. cbn [rbind].
  destruct (AIRTABLE_API_KEY env) as [key|]; cbn [env_unset env_string];
    [|cbn; discriminate].
  destruct (String.eqb_spec key "") as [|Hkey]; [cbn; discriminate|].
  destruct (rawPayload (req_body req)) as [raw|e]; [|discriminate].
  cbn [rbind]. unfold js_and.
  destruct (truthy (prop (req_body req) "airtable_record_id")) eqn:Ht.
  - rewrite (truthy_not_empty _ Ht). cbn.
    destruct (to_string _) as [id|e]; [|discriminate]. cbn.
    intros [= <-]. exists key, (cleanedFields raw). cbn.
    repeat split; try assumption. right. repeat split.
    exists id. split; [reflexivity|]. apply record_url_collection.
  - rewrite Ht. cbn. intros [= <-]. exists key, (cleanedFields raw). cbn.
    repeat split; try assumption. left. repeat split.
Qed.

(** X17. Every outbound call the handler makes is authorised with the configured,
    non-empty API key as a bearer token, is declared as JSON, and carries
    [{fields: p}] for the Outbound Record Payload [p] of the request body.
    It is a [POST] to the collection URL or a [PATCH] to the collection URL
    followed by [/] and the record identifier, under the configured base
    identifier or, when that is unset or empty, the built-in one. *)
Theorem outbound_call_shape (req : request) (rq : fetch_request)
  (o : fetch_outcome) :
  In (rq, o) (calls (snd (run req))) ->
  exists key fields,
    AIRTABLE_API_KEY env = Some key /\ key <> ""
    /\ fr_headers rq = [("Authorization", "Bearer " ++ key);
                        ("Content-Type", "application/json")]
    /\ outbound_payload (req_body req) = Ok fields
    /\ fr_body rq = VObj [("fields", VObj fields)]
    /\ ((fr_method rq = "POST" /\ fr_url rq = collection_url base_id)
        \/ (fr_method rq = "PATCH"
            /\ exists id,
                 to_string (prop (req_body req) "airtable_record_id") = Ok id
                 /\ fr_url rq
                    = (collection_url base_id ++ "/" ++ id)%string)).
Proof.
  intros Hin.
  destruct (handle_total env upstream req)
    as (_ & _ & [H0|(rq' & Hrq & H1)]); rewrite ?H0, ?H1 in *;
    [contradiction|].
  destruct Hin as [[= <- <-]|[]].
  destruct (request_of_shape req rq' Hrq)
    as (key & fields & Hkey & Hne & Hp & Heq & Hdisp).
  exists key, fields. rewrite Heq. cbn.
  repeat split; try assumption.
  destruct Hdisp as [(_ & Hm & Hu)|(_ & Hm & Hu)]; [left|right]; now split.
Qed.

(** X18. Dispatch on any [airtable_record_id], for a request with a body and a
    configured key. A falsy identifier ([false] and zero as well as absent,
    [null] and empty) gives one [POST] to the collection URL. A truthy one
    gives one [PATCH] to the collection URL followed by [/] and the
    identifier converted to a string, inserted as it is; when it has no
    string conversion, the handler answers 500 and makes no call. *)
Theorem dispatch_any_record_id (req : request) :
  req_method req = "POST" \/ req_method req = "PATCH" ->
  env_unset (AIRTABLE_API_KEY env) = false ->
  is_nullish (req_body req) = false ->
  let rid := prop (req_body req) "airtable_record_id" in
  (truthy rid = false ->
   exists rq,
     calls (snd (run req)) = [(rq, upstream rq)]
     /\ fr_method rq = "POST" /\ fr_url rq = collection_url base_id)
  /\ (truthy rid = true ->
      match to_string rid with
      | Ok id =>
          exists rq,
            calls (snd (run req)) = [(rq, upstream rq)]
            /\ fr_method rq = "PATCH"
            /\ fr_url rq = (collection_url base_id ++ "/" ++ id)%string
      | Throw e => run req = (Ok tt, caught e cors_headers [] [])
      end).
Proof.
  intros Hm Hk Hb rid.
  assert (request_of req
          = (if truthy rid
             then rbind (to_string rid) (fun id =>
                    Ok (mkFetch (record_url base_id id) "PATCH"
                          [("Authorization",
                            "Bearer " ++ env_string (AIRTABLE_API_KEY env));
                           ("Content-Type", "application/json")]
                          (VObj [("fields",
                                  VObj (cleanedFields
                                          (raw_fields (req_body req))))])))
             else Ok (mkFetch (collection_url base_id) "POST"
                        [("Authorization",
                          "Bearer " ++ env_string (AIRTABLE_API_KEY env));
                         ("Content-Type", "application/json")]
                        (VObj [("fields",
                                VObj (cleanedFields
                                        (raw_fields (req_body req))))])))
         ) as Hrq.
  { unfold airtable_request.
    rewrite member_ok, rawPayload_ok by assumption. cbn [rbind].
    rewrite Hk. fold rid.
    generalize (cleanedFields (raw_fields (req_body req))) as fields.
    intros fields. unfold js_and.
    destruct (truthy rid) eqn:Ht.
    - rewrite (truthy_not_empty _ Ht). cbn.
      destruct (to_string rid); reflexivity.
    - rewrite Ht. reflexivity. }
  split; intros Ht; rewrite Ht in Hrq.
  - eexists. split; [apply calls_request; eassumption|]. now split.
  - destruct (to_string rid) as [id|e]; cbn in Hrq.
    + eexists. split; [apply calls_request; eassumption|].
      split; [reflexivity|]. apply record_url_collection.
    + rewrite handle_submit by assumption. now rewrite Hrq.
Qed.

End HandlerPaths.

(** * The configuration stays on the server *)

Section Configuration.

Context {number : Type} {runtime : Runtime number}.

Local Abbreviation request := (@request number).
Local Abbreviation world := (@world number).
Local Abbreviation fetch_request := (@fetch_request number).
Local Abbreviation fetch_response := (@fetch_response number).
Local Abbreviation fetch_outcome := (@fetch_outcome number).

(** Under two configurations that both have a key, the [try] block reaches
    [fetch] for the same requests, and fails before it with the same
    error. *)
Lemma request_of_configurations (env1 env2 : environment) (req : request) :
  env_unset (AIRTABLE_API_KEY env1) = false ->
  env_unset (AIRTABLE_API_KEY env2) = false ->
  (exists e, airtable_request env1 req = Throw e
             /\ airtable_request env2 req = Throw e)
  \/ (exists rq1 rq2, airtable_request env1 req = Ok rq1
                      /\ airtable_request env2 req = Ok rq2).
Proof.
  intros H1 H2. unfold airtable_request. rewrite H1, H2.
  destruct (member (req_body req) "airtable_record_id") as [rid|e];
    cbn [rbind]; [|left; eauto].
  destruct (rawPayload (req_body req)) as [raw|e]; cbn [rbind];
    [|left; eauto].
  destruct (truthy _); cbn [rbind]; [|right; eauto].
  destruct (to_string rid) as [id|e]; cbn [rbind]; [right|left]; eauto.
Qed.

(** What is sent and what is logged after the call do not depend on the
    record of calls. *)
Lemma respond_ignores_calls (r : fetch_response) (w1 w2 : world) :
  res w1 = res w2 ->
  console w1 = console w2 ->
  let out1 := try_catch (respond r) catch_block w1 in
  let out2 := try_catch (respond r) catch_block w2 in
  res (snd out1) = res (snd out2) /\ console (snd out1) = console (snd out2).
Proof.
  intros Hr Hc. unfold respond, try_catch, bind, lift, throw.
  destruct (negb (response_ok r)); cbn;
    destruct (json r) as [d|e]; cbn; rewrite ?Hr, ?Hc; auto;
    unfold member; destruct (is_nullish d); cbn; rewrite ?Hr, ?Hc; auto.
  destruct (new_Error _) as [e|e]; cbn; rewrite ?Hr, ?Hc; auto.
Qed.

(** X19. The response and the log depend on the configuration only through
    what the upstream answers: under two configurations with a key (any two
    keys, any two base identifiers) whose outbound calls receive the same
    outcome, the client gets the same headers, status and body and the
    console the same entries. *)
Theorem response_hides_configuration (env1 env2 : environment)
  (upstream1 upstream2 : fetch_request -> fetch_outcome) (req : request) :
  env_unset (AIRTABLE_API_KEY env1) = false ->
  env_unset (AIRTABLE_API_KEY env2) = false ->
  (forall rq1 rq2,
     airtable_request env1 req = Ok rq1 ->
     airtable_request env2 req = Ok rq2 ->
     upstream1 rq1 = upstream2 rq2) ->
  res (snd (handle env1 upstream1 req))
  = res (snd (handle env2 upstream2 req))
  /\ console (snd (handle env1 upstream1 req))
     = console (snd (handle env2 upstream2 req)).
Proof.
  intros H1 H2 Hsame.
  destruct (String.eqb_spec (req_method req) "OPTIONS") as [Ho|Ho].
  { unfold handle, submitToAirTable. rewrite Ho. split; reflexivity. }
  destruct (String.eqb_spec (req_method req) "POST") as [Hp|Hp].
  2: destruct (String.eqb_spec (req_method req) "PATCH") as [Hq|Hq].
  3: { unfold handle, submitToAirTable.
       apply String.eqb_neq in Ho, Hp, Hq. rewrite Ho, Hp, Hq.
       split; reflexivity. }
  all: rewrite !handle_submit by auto;
    destruct (request_of_configurations env1 env2 req H1 H2)
      as [(e & -> & ->)|(rq1 & rq2 & Hr1 & Hr2)]; [split; reflexivity|];
    rewrite Hr1, Hr2, (Hsame rq1 rq2 Hr1 Hr2);
    (destruct (upstream2 rq2) as [r|e]; [|split; reflexivity]);
    now apply respond_ignores_calls.
Qed.

End Configuration.

(** * More concrete runs *)

Lemma raw_sample_distinct : NoDup (map fst Node.raw_sample).
Proof. apply keys_distinct_NoDup. reflexivity. Qed.


Lemma cleanedFields_idempotent_witness :
  cleanedFields (cleanedFields Node.raw_sample)
  = cleanedFields Node.raw_sample.
Proof. apply cleanedFields_idempotent. exact raw_sample_distinct. Defined.

Lemma payload_keys_closed_witness :
  exists fields,
    outbound_payload Node.full_body = Ok fields
    /\ NoDup (map fst fields)
    /\ (forall k, In k (map fst fields) -> In k payload_keys)
    /\ lookup "airtable_record_id" fields = None
    /\ lookup "document_status" fields = None.
Proof. apply (payload_keys_closed Node.full_body). reflexivity. Defined.

Lemma payload_verbatim_fields_witness :
  exists fields,
    outbound_payload Node.full_body = Ok fields
    /\ lookup "first_name" fields = Some (VStr "Ann")
    /\ lookup "consent_checkbox" fields = Some (VBool false)
    /\ lookup "last_name" fields = None
    /\ lookup "email" fields = None.
Proof.
  destruct (payload_verbatim_fields Node.full_body eq_refl)
    as (fields & Hp & Hcopy).
  exists fields. split; [exact Hp|].
  repeat split; rewrite Hcopy; try reflexivity; cbn; tauto.
Defined.

Lemma payload_conditional_fields_witness :
  exists fields,
    outbound_payload Node.full_body = Ok fields
    /\ lookup "goods_location" fields = None
    /\ lookup "destination_country" fields = None.
Proof.
  destruct (payload_conditional_fields Node.full_body eq_refl)
    as (fields & Hp & Himport & Hexport).
  exists fields. split; [exact Hp|]. split.
  - destruct (lookup "goods_location" fields) as [v|] eqn:Hl;
      [|reflexivity].
    destruct (Himport "goods_location" v) as [Hd _];
      [cbn; tauto|exact Hl|discriminate Hd].
  - destruct (lookup "destination_country" fields) as [v|] eqn:Hl;
      [|reflexivity].
    destruct (Hexport "destination_country" v) as [Hd _];
      [cbn; tauto|exact Hl|discriminate Hd].
Defined.

Lemma payload_document_fields_witness :
  exists fields,
    outbound_payload Node.full_body = Ok fields
    /\ lookup "msds_status" fields = Some (VStr "have")
    /\ lookup "packing_list_status" fields = None
    /\ lookup "air_waybill_status" fields = None.
Proof.
  destruct (payload_document_fields Node.full_body eq_refl)
    as (fields & Hp & Hdoc).
  exists fields. split; [exact Hp|]. split; [|split].
  - apply (Hdoc "msds_status" "msds"). cbn; tauto.
  - apply (Hdoc "packing_list_status" "packing_list"). cbn; tauto.
  - apply (Hdoc "air_waybill_status" "air_waybill"). cbn; tauto.
Defined.

Lemma payload_defaulted_fields_witness :
  exists fields,
    outbound_payload Node.full_body = Ok fields
    /\ lookup "status" fields = Some (VStr "draft")
    /\ lookup "personal_item_mixed" fields = Some (VStr "yes")
    /\ lookup "requires_temperature_control" fields = Some (VBool false).
Proof.
  destruct (payload_defaulted_fields Node.full_body eq_refl)
    as (fields & Hp & Hstatus & Hflags).
  exists fields. split; [exact Hp|]. split; [exact Hstatus|]. split.
  - apply (Hflags "personal_item_mixed"). cbn; tauto.
  - apply (Hflags "requires_temperature_control"). cbn; tauto.
Defined.

Lemma success_requires_upstream_success_witness :
  let out := handle Node.configured (Node.always Node.created)
               (mkRequest "POST" Node.create_body) in
  exists rq r d,
    calls (snd out) = [(rq, Resolved r)]
    /\ Node.always Node.created rq = Resolved r
    /\ response_ok r = true
    /\ json r = Ok d
    /\ is_nullish d = false
    /\ sent (res (snd out)) = Json (success_body (prop d "id"))
    /\ console (snd out) = [].
Proof.
  apply (success_requires_upstream_success Node.configured
           (Node.always Node.created) (mkRequest "POST" Node.create_body));
    [reflexivity|discriminate].
Defined.

Lemma errors_are_logged_witness :
  let out := handle Node.configured (Node.always Node.not_found)
               (mkRequest "POST" Node.create_body) in
  exists e pre,
    console (snd out) = (pre ++ [("Submission error:", LogError e)])%list
    /\ sent (res (snd out)) = Json (failure_body (error_text e))
    /\ (pre = [] \/ exists d, pre = [("AirTable API Error:", LogValue d)]).
Proof.
  apply (errors_are_logged Node.configured (Node.always Node.not_found)
           (mkRequest "POST" Node.create_body)).
  reflexivity.
Defined.

Lemma missing_body_witness :
  handle Node.unconfigured (Node.always Node.created)
    (mkRequest "POST" VUndefined)
  = (Ok tt,
     caught
       (type_error "Cannot read properties of undefined (reading 'airtable_record_id')")
       cors_headers [] []).
Proof.
  etransitivity;
    [apply (missing_body Node.unconfigured (Node.always Node.created)
              (mkRequest "POST" VUndefined)); [now left|reflexivity]
    |reflexivity].
Defined.

Lemma network_failure_witness :
  let out := handle Node.configured Node.unreachable
               (mkRequest "POST" Node.create_body) in
  res (snd out) = mkRes cors_headers 500 (Json (failure_body "fetch failed"))
  /\ console (snd out) = [("Submission error:", LogError Node.fetch_failed)]
  /\ length (calls (snd out)) = 1%nat.
Proof.
  cbv zeta.
  assert (exists rq,
            In (rq, Rejected Node.fetch_failed)
              (calls (snd (handle Node.configured Node.unreachable
                             (mkRequest "POST" Node.create_body)))))
    as [rq Hin] by (eexists; left; reflexivity).
  rewrite (network_failure _ _ _ rq _ Hin). repeat split.
Defined.

Lemma unreadable_upstream_body_witness :
  let out := handle Node.configured (Node.always Node.html_success)
               (mkRequest "POST" Node.create_body) in
  statusCode (res (snd out)) = 500
  /\ sent (res (snd out))
     = Json (failure_body "Unexpected token < in JSON at position 0").
Proof.
  cbv zeta.
  assert (exists rq,
            calls (snd (handle Node.configured (Node.always Node.html_success)
                          (mkRequest "POST" Node.create_body)))
            = [(rq, Resolved Node.html_success)])
    as [rq Hc] by (eexists; reflexivity).
  rewrite (unreadable_upstream_body _ _ _ rq _ _ Hc) by reflexivity.
  split; reflexivity.
Defined.

Lemma upstream_success_any_body_witness :
  let out := handle Node.configured (Node.always Node.null_success)
               (mkRequest "POST" Node.create_body) in
  statusCode (res (snd out)) = 500
  /\ sent (res (snd out))
     = Json (failure_body "Cannot read properties of null (reading 'id')").
Proof.
  cbv zeta.
  assert (exists rq,
            calls (snd (handle Node.configured (Node.always Node.null_success)
                          (mkRequest "POST" Node.create_body)))
            = [(rq, Resolved Node.null_success)])
    as [rq Hc] by (eexists; reflexivity).
  rewrite (upstream_success_any_body _ _ _ rq _ _ Hc) by reflexivity.
  split; reflexivity.
Defined.

Lemma upstream_error_any_body_witness :
  let out := handle Node.configured (Node.always Node.array_message)
               (mkRequest "POST" Node.create_body) in
  statusCode (res (snd out)) = 500
  /\ sent (res (snd out)) = Json (failure_body "Internal server error").
Proof.
  cbv zeta.
  assert (exists rq,
            calls (snd (handle Node.configured (Node.always Node.array_message)
                          (mkRequest "POST" Node.create_body)))
            = [(rq, Resolved Node.array_message)])
    as [rq Hc] by (eexists; reflexivity).
  rewrite (upstream_error_any_body _ _ _ rq _ _ Hc) by reflexivity.
  split; reflexivity.
Defined.

Lemma outbound_call_shape_witness :
  exists rq,
    In (rq, Resolved Node.created)
      (calls (snd (handle Node.configured (Node.always Node.created)
                     (mkRequest "POST" Node.update_body))))
    /\ fr_headers rq = [("Authorization", "Bearer key123");
                        ("Content-Type", "application/json")]
    /\ exists fields,
         outbound_payload Node.update_body = Ok fields
         /\ fr_body rq = VObj [("fields", VObj fields)].
Proof.
  assert (exists rq,
            In (rq, Resolved Node.created)
              (calls (snd (handle Node.configured (Node.always Node.created)
                             (mkRequest "POST" Node.update_body)))))
    as [rq Hin] by (eexists; left; reflexivity).
  exists rq. split; [exact Hin|].
  destruct (outbound_call_shape Node.configured (Node.always Node.created)
              (mkRequest "POST" Node.update_body) rq _ Hin)
    as (key & fields & Hkey & _ & Hh & Hp & Hb & _).
  injection Hkey as <-. split; [exact Hh|]. exists fields. now split.
Defined.

Lemma dispatch_any_record_id_witness :
  (exists rq,
     calls (snd (handle Node.configured (Node.always Node.created)
                   (mkRequest "POST" Node.numeric_id_body)))
     = [(rq, Node.always Node.created rq)]
     /\ fr_method rq = "PATCH"
     /\ fr_url rq
        = "https://api.airtable.com/v0/appTll6JoqW04YvJs/Form%20Submissions/42")
  /\ handle Node.configured (Node.always Node.created)
       (mkRequest "POST" Node.object_id_body)
     = (Ok tt,
        caught (type_error "Cannot convert object to primitive value")
          cors_headers [] []).
Proof.
  split.
  - destruct (dispatch_any_record_id Node.configured
                (Node.always Node.created)
                (mkRequest "POST" Node.numeric_id_body))
      as [_ Hupdate]; [now left|reflexivity|reflexivity|].
    exact (Hupdate eq_refl).
  - destruct (dispatch_any_record_id Node.configured
                (Node.always Node.created)
                (mkRequest "POST" Node.object_id_body))
      as [_ Hupdate]; [now left|reflexivity|reflexivity|].
    exact (Hupdate eq_refl).
Defined.

Lemma response_hides_configuration_witness :
  let req := mkRequest "POST" Node.update_body in
  res (snd (handle Node.configured (Node.always Node.invalid_field) req))
  = res (snd (handle Node.other_key (Node.always Node.invalid_field) req))
  /\ console (snd (handle Node.configured (Node.always Node.invalid_field)
                     req))
     = console (snd (handle Node.other_key (Node.always Node.invalid_field)
                       req)).
Proof.
  apply response_hides_configuration; reflexivity.
Defined.
